(** * Fitness tracker: the persistence and query layer of [app.py]

    A shallow embedding of the Flask handlers of [src/app.py] and of the
    part of Python's [sqlite3] and of SQLite that they exercise, followed
    by the properties of the specification checked against it.

    Scope of the embedding.
    - A request payload ([request.json]) is a Python value: [None], a
      [bool], an [int] of any size, a [float], a [str] (its UTF-8 bytes),
      a [list] or a [dict] with string keys.
    - A stored cell is NULL, a 64-bit signed INTEGER or a TEXT.  REAL cells
      are not represented: whenever SQLite would have to store, parse or
      add a floating-point number the embedding answers [BeyondModel]
      instead of guessing.  BLOBs cannot come out of a JSON payload.
    - The database is the four tables of [init_db], each with the rows in
      rowid order and the counter that AUTOINCREMENT keeps for it.
    - A handler runs on a database and either returns its response
      together with the database it leaves, or raises. An exception that
      no [except] clause catches leaves the handler (Flask answers 500);
      the [with get_db() as conn] block then rolls back, so the database
      is the one the handler started from. *)

From Stdlib Require Import ZArith String Ascii.
From Stdlib Require Import Floats.SpecFloat.
From Stdlib Require Import Structures.OrderedTypeEx.
From stdpp Require Import base decidable option list gmap strings sorting pretty.

#[local] Set Warnings "-register-all".
#[local] Open Scope Z_scope.

(** ** Python values and exceptions *)

Inductive pyval : Type :=
  | PNone
  | PBool (b : bool)
  | PInt (z : Z)
  | PFloat (f : spec_float)
  | PStr (s : string)
  | PList (l : list pyval)
  | PDict (d : gmap string pyval).

(** [DatabaseError] stands for every exception of the [sqlite3] module
    ([sqlite3.Error] and its subclasses): a parameter of an unsupported
    type, a NOT NULL constraint that fails, an integer overflow in [SUM],
    no rowid left.  None of them is a [KeyError] or a [TypeError]. *)
Inductive exn : Type :=
  | KeyError
  | TypeError
  | AttributeError
  | OverflowError
  | DatabaseError.

Inductive result (A : Type) : Type :=
  | Ok (a : A)
  | Raise (e : exn)
  | BeyondModel.
Arguments Ok {A} a.
Arguments Raise {A} e.
Arguments BeyondModel {A}.

#[global] Instance result_ret : MRet result := @Ok.
#[global] Instance result_bind : MBind result := λ A B f r,
  match r with
  | Ok a => f a
  | Raise e => Raise e
  | BeyondModel => BeyondModel
  end.
#[global] Instance result_fmap : FMap result := λ A B f r,
  match r with
  | Ok a => Ok (f a)
  | Raise e => Raise e
  | BeyondModel => BeyondModel
  end.

(** [data[key]] *)
Definition getitem (data : pyval) (key : string) : result pyval :=
  match data with
  | PDict d => match d !! key with
               | Some v => Ok v
               | None => Raise KeyError
               end
  | _ => Raise TypeError
  end.

(** [data.get(key, dflt)] *)
Definition get (data : pyval) (key : string) (dflt : pyval) : result pyval :=
  match data with
  | PDict d => Ok (default dflt (d !! key))
  | _ => Raise AttributeError
  end.

(** ** SQLite values and parameter binding *)

Definition min_int64 : Z := - 2 ^ 63.
Definition max_int64 : Z := 2 ^ 63 - 1.
Definition in_int64 (z : Z) : bool := (min_int64 <=? z) && (z <=? max_int64).

Inductive sqlval : Type :=
  | SNull
  | SInt (z : Z)
  | SText (s : string).

(** What [conn.execute(sql, params)] does with one parameter.  A Python
    [int] outside 64 bits raises [OverflowError]; a [bool] is an [int];
    a [list] or a [dict] is refused by the [sqlite3] module. *)
Definition bind_int (z : Z) : result Z :=
  if in_int64 z then Ok z else Raise OverflowError.

Definition bind_param (v : pyval) : result sqlval :=
  match v with
  | PNone => Ok SNull
  | PBool b => SInt <$> bind_int (if b then 1 else 0)
  | PInt z => SInt <$> bind_int z
  | PFloat _ => BeyondModel
  | PStr s => Ok (SText s)
  | PList _ | PDict _ => Raise DatabaseError
  end.

(** ** Column affinity and NOT NULL

    A TEXT column turns an INTEGER into its decimal text.  An INTEGER
    column turns a TEXT that is a plain decimal integer literal into that
    integer; any other TEXT would stay a TEXT or become a REAL, which the
    typed rows below do not hold. *)

Definition digit_value (c : ascii) : option Z :=
  let n := Z.of_N (N_of_ascii c) in
  if (48 <=? n) && (n <=? 57) then Some (n - 48) else None.

Fixpoint digits_value (acc : Z) (s : string) : option Z :=
  match s with
  | EmptyString => Some acc
  | String c s' =>
      match digit_value c with
      | Some d => digits_value (10 * acc + d) s'
      | None => None
      end
  end.

Definition integer_literal (s : string) : option Z :=
  match s with
  | EmptyString => None
  | String "-" (String _ _ as ds) => Z.opp <$> digits_value 0 ds
  | String "+" (String _ _ as ds) => digits_value 0 ds
  | _ => digits_value 0 s
  end.

Definition text_affinity (v : sqlval) : sqlval :=
  match v with
  | SInt z => SText (pretty z)
  | _ => v
  end.

Definition integer_affinity (v : sqlval) : result sqlval :=
  match v with
  | SText s =>
      match integer_literal s with
      | Some z => if in_int64 z then Ok (SInt z) else BeyondModel
      | None => BeyondModel
      end
  | _ => Ok v
  end.

(** [TEXT NOT NULL] *)
Definition text_not_null (v : sqlval) : result string :=
  match text_affinity v with
  | SText s => Ok s
  | _ => Raise DatabaseError
  end.

(** [TEXT] *)
Definition text_nullable (v : sqlval) : option string :=
  match text_affinity v with
  | SText s => Some s
  | _ => None
  end.

(** [INTEGER NOT NULL] *)
Definition integer_not_null (v : sqlval) : result Z :=
  v' ← integer_affinity v;
  match v' with
  | SInt z => Ok z
  | _ => Raise DatabaseError
  end.

(** [INTEGER], with or without a DEFAULT: the handlers always pass a
    value for the column, so the DEFAULT of the schema is never used. *)
Definition integer_nullable (v : sqlval) : result (option Z) :=
  v' ← integer_affinity v;
  match v' with
  | SInt z => Ok (Some z)
  | _ => Ok None
  end.

(** ** The schema of [init_db]

    One record per table, one field per column.  [id] is the rowid;
    [created_at] is the text that [CURRENT_TIMESTAMP] gave at the insert
    ([YYYY-MM-DD HH:MM:SS]). *)

Module Workout.
Record row : Type := Row {
  id : Z;
  date : string;
  type : string;
  duration : Z;
  calories : Z;
  notes : option string;
  created_at : string }.
End Workout.

Module Goal.
Record row : Type := Row {
  id : Z;
  goal_type : string;
  target_value : Z;
  deadline : option string;
  created_at : string }.
End Goal.

Module Meal.
Record row : Type := Row {
  id : Z;
  date : string;
  meal_type : string;
  food_name : string;
  calories : Z;
  protein : option Z;
  carbs : option Z;
  fats : option Z;
  notes : option string;
  created_at : string }.
End Meal.

Module CalorieGoal.
Record row : Type := Row {
  id : Z;
  date : string;
  daily_goal : Z;
  created_at : string }.
End CalorieGoal.

(** A table: its rows in rowid order and the largest rowid it ever held
    (the [seq] column of [sqlite_sequence], kept by AUTOINCREMENT). *)
Record table (R : Type) : Type := Table { rows : list R; seq : Z }.
Arguments Table {R} rows seq.
Arguments rows {R} t.
Arguments seq {R} t.

Record database : Type := Database {
  workouts : table Workout.row;
  goals : table Goal.row;
  meals : table Meal.row;
  calorie_goals : table CalorieGoal.row }.

Definition max_rowid {R} (rowid : R → Z) (l : list R) : Z :=
  foldr (λ r m, Z.max (rowid r) m) 0 l.

(** [INTEGER PRIMARY KEY AUTOINCREMENT]: one more than the largest rowid
    the table ever held; no insert once the largest rowid was used. *)
Definition new_rowid {R} (rowid : R → Z) (t : table R) : result Z :=
  let largest := Z.max (seq t) (max_rowid rowid (rows t)) in
  if largest <? max_int64 then Ok (largest + 1) else Raise DatabaseError.

(** ** ORDER BY, LIMIT, SUM

    TEXT compares byte by byte ([String.compare]).  [order_by] is a merge
    sort; SQL leaves the order of rows with equal keys open, and no
    theorem below depends on it. *)

Definition asc (a b : string) : bool := String.leb a b.
Definition desc (a b : string) : bool := String.leb b a.

Definition desc_desc (a1 a2 b1 b2 : string) : bool :=
  match String.compare a1 b1 with
  | Gt => true
  | Lt => false
  | Eq => desc a2 b2
  end.

Definition precedes {R} (before : R → R → bool) : relation R :=
  λ a b, before a b = true.
#[global] Instance precedes_dec {R} (before : R → R → bool) :
  RelDecision (precedes before) := λ a b, decide (before a b = true).

Definition order_by {R} (before : R → R → bool) (l : list R) : list R :=
  merge_sort (precedes before) l.

Definition limit {R} (n : nat) (l : list R) : list R := take n l.

(** [SUM(col)]: NULL over no non-NULL cell, else the integer sum; an
    overflow of 64 bits at any point of the scan is an error. *)
Definition sum_step (acc : result (option Z)) (cell : option Z) : result (option Z) :=
  a ← acc;
  match cell with
  | None => Ok a
  | Some v =>
      let s := default 0 a + v in
      if in_int64 s then Ok (Some s) else Raise DatabaseError
  end.

Definition sql_sum (cells : list (option Z)) : result (option Z) :=
  foldl sum_step (Ok None) cells.

(** [x or 0] where [x] is [None] or an [int] *)
Definition or_0 (x : option Z) : Z := default 0 x.

(** ** The handler monad

    A computation runs on a database and returns a value and the database
    it leaves, or raises, or leaves the embedding.  [try_except] runs its
    handler on the database the body started from: the [with] block
    inside the body has rolled back when the exception reaches it. *)

Definition M (A : Type) : Type := database → result (A * database).

#[global] Instance M_ret : MRet M := λ A a db, Ok (a, db).
#[global] Instance M_bind : MBind M := λ A B f m db,
  match m db with
  | Ok (a, db') => f a db'
  | Raise e => Raise e
  | BeyondModel => BeyondModel
  end.

Definition lift {A} (r : result A) : M A := λ db,
  match r with
  | Ok a => Ok (a, db)
  | Raise e => Raise e
  | BeyondModel => BeyondModel
  end.

(** A SELECT: it reads the database and leaves it as it is. *)
Definition query {A} (q : database → A) : M A := λ db, Ok (q db, db).

Definition try_except {A} (body : M A) (caught : exn → bool) (handler : M A) : M A :=
  λ db,
  match body db with
  | Raise e => if caught e then handler db else Raise e
  | r => r
  end.

(** [except (KeyError, TypeError)] *)
Definition KeyError_TypeError (e : exn) : bool :=
  match e with
  | KeyError | TypeError => true
  | _ => false
  end.

(** The database a handler leaves: the one it returns, or the one it
    started from when it raises. *)
Definition db_after {A} (o : result (A * database)) (db : database) : option database :=
  match o with
  | Ok (_, db') => Some db'
  | Raise _ => Some db
  | BeyondModel => None
  end.

(** [jsonify(body), status] and [jsonify({'error': error}), status] *)
Inductive response (A : Type) : Type :=
  | Reply (status : Z) (body : A)
  | ReplyError (status : Z) (error : string).
Arguments Reply {A} status body.
Arguments ReplyError {A} status error.

Definition set_workouts (t : table Workout.row) (db : database) : database :=
  Database t (goals db) (meals db) (calorie_goals db).
Definition set_goals (t : table Goal.row) (db : database) : database :=
  Database (workouts db) t (meals db) (calorie_goals db).
Definition set_meals (t : table Meal.row) (db : database) : database :=
  Database (workouts db) (goals db) t (calorie_goals db).
Definition set_calorie_goals (t : table CalorieGoal.row) (db : database) : database :=
  Database (workouts db) (goals db) (meals db) t.

(** ** The SQL statements that write *)

(** [INSERT INTO workouts (date, type, duration, calories, notes)
    VALUES (?, ?, ?, ?, ?)]; the value is [cursor.lastrowid]. *)
Definition insert_into_workouts (now : string)
    (date type duration calories notes : pyval) : M Z := λ db,
  date ← bind_param date;
  type ← bind_param type;
  duration ← bind_param duration;
  calories ← bind_param calories;
  notes ← bind_param notes;
  rowid ← new_rowid Workout.id (workouts db);
  date ← text_not_null date;
  type ← text_not_null type;
  duration ← integer_not_null duration;
  calories ← integer_not_null calories;
  let r := Workout.Row rowid date type duration calories (text_nullable notes) now in
  Ok (rowid, set_workouts (Table (rows (workouts db) ++ [r]) rowid) db).

(** [INSERT INTO meals (date, meal_type, food_name, calories, protein,
    carbs, fats, notes) VALUES (?, ?, ?, ?, ?, ?, ?, ?)] *)
Definition insert_into_meals (now : string)
    (date meal_type food_name calories protein carbs fats notes : pyval) : M Z := λ db,
  date ← bind_param date;
  meal_type ← bind_param meal_type;
  food_name ← bind_param food_name;
  calories ← bind_param calories;
  protein ← bind_param protein;
  carbs ← bind_param carbs;
  fats ← bind_param fats;
  notes ← bind_param notes;
  rowid ← new_rowid Meal.id (meals db);
  date ← text_not_null date;
  meal_type ← text_not_null meal_type;
  food_name ← text_not_null food_name;
  calories ← integer_not_null calories;
  protein ← integer_nullable protein;
  carbs ← integer_nullable carbs;
  fats ← integer_nullable fats;
  let r := Meal.Row rowid date meal_type food_name calories protein carbs fats
             (text_nullable notes) now in
  Ok (rowid, set_meals (Table (rows (meals db) ++ [r]) rowid) db).

(** [INSERT INTO goals (goal_type, target_value, deadline) VALUES (?, ?, ?)] *)
Definition insert_into_goals (now : string)
    (goal_type target_value deadline : pyval) : M Z := λ db,
  goal_type ← bind_param goal_type;
  target_value ← bind_param target_value;
  deadline ← bind_param deadline;
  rowid ← new_rowid Goal.id (goals db);
  goal_type ← text_not_null goal_type;
  target_value ← integer_not_null target_value;
  let r := Goal.Row rowid goal_type target_value (text_nullable deadline) now in
  Ok (rowid, set_goals (Table (rows (goals db) ++ [r]) rowid) db).

(** [INSERT OR REPLACE INTO calorie_goals (date, daily_goal) VALUES (?, ?)]:
    [date] is UNIQUE, so the rows that hold the new date are deleted and
    the new row is inserted under a new rowid. *)
Definition insert_or_replace_into_calorie_goals (now : string)
    (date daily_goal : pyval) : M Z := λ db,
  date ← bind_param date;
  daily_goal ← bind_param daily_goal;
  rowid ← new_rowid CalorieGoal.id (calorie_goals db);
  date ← text_not_null date;
  daily_goal ← integer_not_null daily_goal;
  let kept := filter (λ r, CalorieGoal.date r ≠ date) (rows (calorie_goals db)) in
  let r := CalorieGoal.Row rowid date daily_goal now in
  Ok (rowid, set_calorie_goals (Table (kept ++ [r]) rowid) db).

(** [DELETE FROM t WHERE id = ?] *)
Definition delete_where_id {R} (rowid : R → Z) (param : Z) (t : table R) : result (table R) :=
  k ← bind_int param;
  Ok (Table (filter (λ r, rowid r ≠ k) (rows t)) (seq t)).

Definition delete_from_workouts (workout_id : Z) : M () := λ db,
  t ← delete_where_id Workout.id workout_id (workouts db);
  Ok ((), set_workouts t db).

Definition delete_from_meals (meal_id : Z) : M () := λ db,
  t ← delete_where_id Meal.id meal_id (meals db);
  Ok ((), set_meals t db).

Definition delete_from_goals (goal_id : Z) : M () := λ db,
  t ← delete_where_id Goal.id goal_id (goals db);
  Ok ((), set_goals t db).

(** ** The SELECT statements *)

Definition select_sum (cells : database → list (option Z)) : M (option Z) :=
  λ db, lift (sql_sum (cells db)) db.

Definition newest_first {R} (date created_at : R → string) (a b : R) : bool :=
  desc_desc (date a) (created_at a) (date b) (created_at b).

Definition on_date (date : string) (l : list Meal.row) : list Meal.row :=
  filter (λ m, Meal.date m = date) l.

(** ** The handlers of [app.py] *)

(** [GET /api/workouts] *)
Definition get_workouts : M (response (list Workout.row)) :=
  workouts ← query (λ db,
    order_by (newest_first Workout.date Workout.created_at) (rows (workouts db)));
  mret (Reply 200 workouts).

(** [POST /api/workouts]; [data] is [request.json], [now] the text of
    [CURRENT_TIMESTAMP] at the insert. *)
Definition add_workout (now : string) (data : pyval) : M (response (Z * string)) :=
  try_except
    (date ← lift (getitem data "date");
     type ← lift (getitem data "type");
     duration ← lift (getitem data "duration");
     calories ← lift (getitem data "calories");
     notes ← lift (get data "notes" (PStr EmptyString));
     lastrowid ← insert_into_workouts now date type duration calories notes;
     mret (Reply 201 (lastrowid, "Workout added successfully"%string)))
    KeyError_TypeError
    (mret (ReplyError 400 "Invalid or missing data in request")).

(** [DELETE /api/workouts/<int:workout_id>] *)
Definition delete_workout (workout_id : Z) : M (response string) :=
  _ ← delete_from_workouts workout_id;
  mret (Reply 200 "Workout deleted successfully"%string).

(** [GET /api/meals]; [date] is [request.args.get('date')], and
    [if date:] holds for a string that is not empty. *)
Definition get_meals (date : option string) : M (response (list Meal.row)) :=
  meals ←
    match date with
    | Some (String _ _ as d) =>
        query (λ db,
          order_by (λ a b, desc (Meal.created_at a) (Meal.created_at b))
            (on_date d (rows (meals db))))
    | _ =>
        query (λ db,
          limit 50 (order_by (newest_first Meal.date Meal.created_at) (rows (meals db))))
    end;
  mret (Reply 200 meals).

(** [POST /api/meals] *)
Definition add_meal (now : string) (data : pyval) : M (response (Z * string)) :=
  try_except
    (date ← lift (getitem data "date");
     meal_type ← lift (getitem data "meal_type");
     food_name ← lift (getitem data "food_name");
     calories ← lift (getitem data "calories");
     protein ← lift (get data "protein" (PInt 0));
     carbs ← lift (get data "carbs" (PInt 0));
     fats ← lift (get data "fats" (PInt 0));
     notes ← lift (get data "notes" (PStr EmptyString));
     lastrowid ← insert_into_meals now date meal_type food_name calories
                   protein carbs fats notes;
     mret (Reply 201 (lastrowid, "Meal added successfully"%string)))
    KeyError_TypeError
    (mret (ReplyError 400 "Invalid or missing data in request")).

(** [DELETE /api/meals/<int:meal_id>] *)
Definition delete_meal (meal_id : Z) : M (response string) :=
  _ ← delete_from_meals meal_id;
  mret (Reply 200 "Meal deleted successfully"%string).

Record totals : Type := Totals {
  totals_calories : Z;
  totals_protein : Z;
  totals_carbs : Z;
  totals_fats : Z }.

(** [GET /api/meals/daily/<date>] *)
Definition get_daily_meals (date : string) : M (response (list Meal.row * totals)) :=
  fetched ← query (λ db,
    order_by (λ a b, asc (Meal.created_at a) (Meal.created_at b))
      (on_date date (rows (meals db))));
  calories ← select_sum (λ db, Some ∘ Meal.calories <$> on_date date (rows (meals db)));
  protein ← select_sum (λ db, Meal.protein <$> on_date date (rows (meals db)));
  carbs ← select_sum (λ db, Meal.carbs <$> on_date date (rows (meals db)));
  fats ← select_sum (λ db, Meal.fats <$> on_date date (rows (meals db)));
  mret (Reply 200 (fetched, Totals (or_0 calories) (or_0 protein) (or_0 carbs) (or_0 fats))).

(** [GET /api/calorie-goals/<date>]; [fetchone()] is the first row or [None]. *)
Definition get_calorie_goal (date : string) : M (response (option CalorieGoal.row)) :=
  goal ← query (λ db,
    head (filter (λ g, CalorieGoal.date g = date) (rows (calorie_goals db))));
  mret (Reply 200 goal).

(** [POST /api/calorie-goals] *)
Definition set_calorie_goal (now : string) (data : pyval) : M (response string) :=
  try_except
    (date ← lift (getitem data "date");
     daily_goal ← lift (getitem data "daily_goal");
     _ ← insert_or_replace_into_calorie_goals now date daily_goal;
     mret (Reply 201 "Calorie goal set successfully"%string))
    KeyError_TypeError
    (mret (ReplyError 400 "Invalid or missing data in request")).

Record stats : Type := Stats {
  total_workouts : Z;
  total_calories_burned : Z;
  total_duration : Z;
  total_calories_consumed : Z;
  net_calories : Z }.

(** [GET /api/stats] *)
Definition get_stats : M (response stats) :=
  total_workouts ← query (λ db, Z.of_nat (length (rows (workouts db))));
  burned ← select_sum (λ db, Some ∘ Workout.calories <$> rows (workouts db));
  let total_calories_burned := or_0 burned in
  duration ← select_sum (λ db, Some ∘ Workout.duration <$> rows (workouts db));
  let total_duration := or_0 duration in
  consumed ← select_sum (λ db, Some ∘ Meal.calories <$> rows (meals db));
  let total_calories_consumed := or_0 consumed in
  mret (Reply 200 (Stats total_workouts total_calories_burned total_duration
                     total_calories_consumed
                     (total_calories_consumed - total_calories_burned))).

(** [GET /api/goals] *)
Definition get_goals : M (response (list Goal.row)) :=
  goals ← query (λ db,
    order_by (λ a b, desc (Goal.created_at a) (Goal.created_at b)) (rows (goals db)));
  mret (Reply 200 goals).

(** [POST /api/goals] *)
Definition add_goal (now : string) (data : pyval) : M (response (Z * string)) :=
  try_except
    (goal_type ← lift (getitem data "goal_type");
     target_value ← lift (getitem data "target_value");
     deadline ← lift (get data "deadline" PNone);
     lastrowid ← insert_into_goals now goal_type target_value deadline;
     mret (Reply 201 (lastrowid, "Goal added successfully"%string)))
    KeyError_TypeError
    (mret (ReplyError 400 "Invalid or missing data in request")).

(** [DELETE /api/goals/<int:goal_id>] *)
Definition delete_goal (goal_id : Z) : M (response string) :=
  _ ← delete_from_goals goal_id;
  mret (Reply 200 "Goal deleted successfully"%string).

(** * What the properties are stated with *)

(** ** Orders of a listing *)

(** [a] may stand before [b] under [ORDER BY date DESC, created_at DESC]:
    the date of [a] is the later one, or the dates are equal and [a] was
    not created before [b]. *)
Definition date_desc_created_desc {R} (date created_at : R → string) : relation R :=
  λ a b,
    String.ltb (date b) (date a) = true ∨
    (date a = date b ∧ String.leb (created_at b) (created_at a) = true).

(** [a] may stand before [b] under [ORDER BY created_at DESC], and under
    [ORDER BY created_at ASC]. *)
Definition created_desc {R} (created_at : R → string) : relation R :=
  λ a b, String.leb (created_at b) (created_at a) = true.
Definition created_asc {R} (created_at : R → string) : relation R :=
  λ a b, String.leb (created_at a) (created_at b) = true.

(** ** Sums *)

(** The running totals of a [SUM] scan, started at [acc], all fit in 64 bits. *)
Fixpoint sums_fit_from (acc : Z) (cells : list (option Z)) : bool :=
  match cells with
  | [] => true
  | None :: cells' => sums_fit_from acc cells'
  | Some v :: cells' => in_int64 (acc + v) && sums_fit_from (acc + v) cells'
  end.
Definition sums_fit (cells : list (option Z)) : bool := sums_fit_from 0 cells.

(** The sum of a column over some rows; a NULL adds nothing. *)
Definition sum_of {R} (col : R → Z) (l : list R) : Z :=
  foldr (λ r s, col r + s) 0 l.
Definition sum_of_nullable {R} (col : R → option Z) (l : list R) : Z :=
  sum_of (λ r, default 0 (col r)) l.

(** ** The three stores with a create call *)

Inductive store : Type := WorkoutStore | MealStore | GoalStore.

Definition create (s : store) : string → pyval → M (response (Z * string)) :=
  match s with
  | WorkoutStore => add_workout
  | MealStore => add_meal
  | GoalStore => add_goal
  end.

(** The keys that the handler reads with [data[key]]. *)
Definition required (s : store) : list string :=
  match s with
  | WorkoutStore => ["date"; "type"; "duration"; "calories"]
  | MealStore => ["date"; "meal_type"; "food_name"; "calories"]
  | GoalStore => ["goal_type"; "target_value"]
  end%string.

(** A required field is absent: the payload is a [dict] without one of
    the keys, or it is no [dict] at all. *)
Definition lacks_required (s : store) (data : pyval) : Prop :=
  match data with
  | PDict d => ∃ k, k ∈ required s ∧ d !! k = None
  | _ => True
  end.

Definition bad_request : response (Z * string) :=
  ReplyError 400 "Invalid or missing data in request".

(** ** Payloads and databases of the examples *)

Definition workout_payload (date type : string) (duration calories : Z) : pyval :=
  PDict (<[ "date"%string := PStr date ]>
         (<[ "type"%string := PStr type ]>
         (<[ "duration"%string := PInt duration ]>
         (<[ "calories"%string := PInt calories ]> ∅)))).

Definition meal_payload (date meal_type food_name : string) (calories : Z) : pyval :=
  PDict (<[ "date"%string := PStr date ]>
         (<[ "meal_type"%string := PStr meal_type ]>
         (<[ "food_name"%string := PStr food_name ]>
         (<[ "calories"%string := PInt calories ]> ∅)))).

Definition goal_payload (date : string) (daily_goal : Z) : pyval :=
  PDict (<[ "date"%string := PStr date ]>
         (<[ "daily_goal"%string := PInt daily_goal ]> ∅)).

(** The database after [init_db]. *)
Definition empty_db : database :=
  Database (Table [] 0) (Table [] 0) (Table [] 0) (Table [] 0).

Definition with_workouts (l : list Workout.row) (n : Z) : database :=
  set_workouts (Table l n) empty_db.
Definition with_meals (l : list Meal.row) (n : Z) : database :=
  set_meals (Table l n) empty_db.

(** Two workouts, and three meals of one day in the order of their
    creation times. *)
Definition run : Workout.row :=
  Workout.Row 1 "2024-01-01" "run" 30 300 (Some EmptyString) "2024-01-01 07:00:00".
Definition swim : Workout.row :=
  Workout.Row 2 "2024-01-02" "swim" 45 400 (Some EmptyString) "2024-01-02 18:00:00".

Definition breakfast : Meal.row :=
  Meal.Row 1 "2024-01-01" "breakfast" "oats" 350 (Some 0) (Some 0) (Some 0) (Some EmptyString)
    "2024-01-01 08:00:00".
Definition lunch : Meal.row :=
  Meal.Row 2 "2024-01-01" "lunch" "rice" 600 (Some 0) (Some 0) (Some 0) (Some EmptyString)
    "2024-01-01 12:30:00".
Definition dinner : Meal.row :=
  Meal.Row 3 "2024-01-01" "dinner" "soup" 400 (Some 0) (Some 0) (Some 0) (Some EmptyString)
    "2024-01-01 19:00:00".

Definition one_day : database :=
  set_workouts (Table [run; swim] 2) (with_meals [breakfast; lunch; dinner] 3).

(** A workout and a meal of 2^62 calories: the value fits in a 64-bit
    INTEGER, the sum of two of them does not. *)
Definition heavy (n : Z) (created_at : string) : Workout.row :=
  Workout.Row n "2024-01-01" "row" 60 (2 ^ 62) (Some EmptyString) created_at.
Definition feast (n : Z) (created_at : string) : Meal.row :=
  Meal.Row n "2024-01-01" "dinner" "feast" (2 ^ 62) (Some 0) (Some 0) (Some 0) (Some EmptyString)
    created_at.

(** ** The database file and [init_db]

    Before [init_db] has run a table may be missing from the file.
    [CREATE TABLE IF NOT EXISTS] creates a missing table empty and leaves
    a table that exists as it is. *)

Record storage : Type := Storage {
  stored_workouts : option (table Workout.row);
  stored_goals : option (table Goal.row);
  stored_meals : option (table Meal.row);
  stored_calorie_goals : option (table CalorieGoal.row) }.

Definition create_table_if_not_exists {R} (t : option (table R)) : option (table R) :=
  match t with
  | Some t => Some t
  | None => Some (Table [] 0)
  end.

Definition init_db (f : storage) : storage :=
  Storage (create_table_if_not_exists (stored_workouts f))
          (create_table_if_not_exists (stored_goals f))
          (create_table_if_not_exists (stored_meals f))
          (create_table_if_not_exists (stored_calorie_goals f)).

(** The database the handlers work on, when the four tables exist. *)
Definition tables (f : storage) : option database :=
  w ← stored_workouts f;
  g ← stored_goals f;
  m ← stored_meals f;
  c ← stored_calorie_goals f;
  Some (Database w g m c).

(** ** The routes of [app.py]

    One request is one call of one handler ([@app.route]); [serve] is the
    database it leaves behind, [serve_all] the one after a run of
    requests. *)

Inductive request : Type :=
  | GET_workouts
  | POST_workouts (now : string) (data : pyval)
  | DELETE_workouts (workout_id : Z)
  | GET_meals (date : option string)
  | POST_meals (now : string) (data : pyval)
  | DELETE_meals (meal_id : Z)
  | GET_meals_daily (date : string)
  | GET_calorie_goals (date : string)
  | POST_calorie_goals (now : string) (data : pyval)
  | GET_stats
  | GET_goals
  | POST_goals (now : string) (data : pyval)
  | DELETE_goals (goal_id : Z).

Definition serve (q : request) (db : database) : option database :=
  match q with
  | GET_workouts => db_after (get_workouts db) db
  | POST_workouts now data => db_after (add_workout now data db) db
  | DELETE_workouts workout_id => db_after (delete_workout workout_id db) db
  | GET_meals date => db_after (get_meals date db) db
  | POST_meals now data => db_after (add_meal now data db) db
  | DELETE_meals meal_id => db_after (delete_meal meal_id db) db
  | GET_meals_daily date => db_after (get_daily_meals date db) db
  | GET_calorie_goals date => db_after (get_calorie_goal date db) db
  | POST_calorie_goals now data => db_after (set_calorie_goal now data db) db
  | GET_stats => db_after (get_stats db) db
  | GET_goals => db_after (get_goals db) db
  | POST_goals now data => db_after (add_goal now data db) db
  | DELETE_goals goal_id => db_after (delete_goal goal_id db) db
  end.

Fixpoint serve_all (qs : list request) (db : database) : option database :=
  match qs with
  | [] => Some db
  | q :: qs' =>
      match serve q db with
      | Some db' => serve_all qs' db'
      | None => None
      end
  end.

(** ** What the tables keep

    The ids of a table grow along its rows, lie between 1 and the counter
    of the table, and the counter is a 64-bit integer. *)
Definition table_ok {R} (rowid : R → Z) (t : table R) : Prop :=
  StronglySorted (λ a b, rowid a < rowid b) (rows t) ∧
  Forall (λ r, 1 ≤ rowid r ≤ seq t) (rows t) ∧
  0 ≤ seq t ≤ max_int64.

(** At most one calorie goal per date. *)
Definition one_per_date (l : list CalorieGoal.row) : Prop :=
  ∀ d, (length (filter (λ r, CalorieGoal.date r = d) l) ≤ 1)%nat.

Definition db_ok (db : database) : Prop :=
  table_ok Workout.id (workouts db) ∧
  table_ok Goal.id (goals db) ∧
  table_ok Meal.id (meals db) ∧
  table_ok CalorieGoal.id (calorie_goals db) ∧
  one_per_date (rows (calorie_goals db)).

(** The counter of the table a store creates rows in. *)
Definition store_seq (s : store) (db : database) : Z :=
  match s with
  | WorkoutStore => seq (workouts db)
  | MealStore => seq (meals db)
  | GoalStore => seq (goals db)
  end.

Definition goal_row_payload (goal_type : string) (target_value : Z) : pyval :=
  PDict (<[ "goal_type"%string := PStr goal_type ]>
         (<[ "target_value"%string := PInt target_value ]> ∅)).

(** The payload of [set_calorie_goal] lacks one of its two fields. *)
Definition lacks_calorie_goal_field (data : pyval) : Prop :=
  match data with
  | PDict d => d !! "date"%string = None ∨ d !! "daily_goal"%string = None
  | _ => True
  end.

(** The largest rowid a table ever held. *)
Definition largest_rowid {R} (rowid : R → Z) (t : table R) : Z :=
  Z.max (seq t) (max_rowid rowid (rows t)).

(** A file that holds [one_day]'s workouts and nothing else yet. *)
Definition half_file : storage :=
  Storage (Some (Table [run; swim] 2)) None None None.

(** [one_day] with a calorie goal for its date. *)
Definition first_goal : CalorieGoal.row :=
  CalorieGoal.Row 1 "2024-01-01" 2000 "2024-01-01 09:00:00".
Definition goal_day : database :=
  set_calorie_goals (Table [first_goal] 1) one_day.

(** * Properties *)

(** ** The order of TEXT *)

Section text_order.
Implicit Types a b c : string.

Lemma compare_refl a : String.compare a a = Eq.
Proof. by apply String_as_OT.cmp_eq. Qed.

Lemma compare_Lt_trans a b c :
  String.compare a b = Lt → String.compare b c = Lt → String.compare a c = Lt.
Proof.
  intros Hab Hbc. apply String_as_OT.cmp_lt.
  eapply String_as_OT.lt_trans; by apply String_as_OT.cmp_lt.
Qed.

Lemma compare_Gt_Lt a b : String.compare a b = Gt ↔ String.compare b a = Lt.
Proof.
  rewrite (String.compare_antisym a b).
  destruct (String.compare b a); simpl; split; congruence.
Qed.

Lemma compare_Gt_trans a b c :
  String.compare a b = Gt → String.compare b c = Gt → String.compare a c = Gt.
Proof.
  rewrite !compare_Gt_Lt. intros Hba Hcb. by eapply compare_Lt_trans.
Qed.

Lemma leb_refl a : String.leb a a = true.
Proof. unfold String.leb. by rewrite compare_refl. Qed.

Lemma leb_trans a b c :
  String.leb a b = true → String.leb b c = true → String.leb a c = true.
Proof.
  unfold String.leb.
  destruct (String.compare a b) eqn:Hab; [|intros _|done].
  { by apply String.compare_eq_iff in Hab as ->. }
  destruct (String.compare b c) eqn:Hbc; [|intros _|done].
  { apply String.compare_eq_iff in Hbc as <-. by rewrite Hab. }
  by rewrite (compare_Lt_trans a b c).
Qed.

#[global] Instance asc_total : Total (precedes asc).
Proof. intros a b. apply String.leb_total. Qed.
#[global] Instance asc_trans : Transitive (precedes asc).
Proof. intros a b c. apply leb_trans. Qed.
#[global] Instance desc_total : Total (precedes desc).
Proof. intros a b. unfold precedes, desc. destruct (String.leb_total a b); auto. Qed.
#[global] Instance desc_trans : Transitive (precedes desc).
Proof. intros a b c Hab Hbc. unfold precedes, desc in *. by eapply leb_trans. Qed.

(** [ORDER BY x DESC, y DESC], spelled out *)
Lemma desc_desc_spec a1 a2 b1 b2 :
  desc_desc a1 a2 b1 b2 = true ↔
  String.ltb b1 a1 = true ∨ (a1 = b1 ∧ String.leb b2 a2 = true).
Proof.
  unfold desc_desc, desc, String.ltb.
  destruct (String.compare a1 b1) eqn:H.
  - apply String.compare_eq_iff in H. subst b1. rewrite compare_refl.
    split; [by right|]. by intros [?|[_ ?]].
  - assert (String.compare b1 a1 = Gt) as -> by by apply compare_Gt_Lt.
    split; [done|]. intros [?|[-> _]]; [done|]. by rewrite compare_refl in H.
  - apply compare_Gt_Lt in H. rewrite H. split; [by left|done].
Qed.

Lemma desc_desc_total a1 a2 b1 b2 :
  desc_desc a1 a2 b1 b2 = true ∨ desc_desc b1 b2 a1 a2 = true.
Proof.
  unfold desc_desc. rewrite (String.compare_antisym b1 a1).
  destruct (String.compare a1 b1); simpl; auto.
  apply (desc_total a2 b2).
Qed.

Lemma desc_desc_trans a1 a2 b1 b2 c1 c2 :
  desc_desc a1 a2 b1 b2 = true → desc_desc b1 b2 c1 c2 = true →
  desc_desc a1 a2 c1 c2 = true.
Proof.
  unfold desc_desc.
  destruct (String.compare a1 b1) eqn:Hab; [|done|].
  - apply String.compare_eq_iff in Hab as ->.
    destruct (String.compare b1 c1); [|done..]. apply (desc_trans a2 b2 c2).
  - intros _. destruct (String.compare b1 c1) eqn:Hbc; [|done|].
    + apply String.compare_eq_iff in Hbc as <-. by rewrite Hab.
    + by rewrite (compare_Gt_trans a1 b1 c1).
Qed.
End text_order.

Section order_by.
Context {R : Type} (before : R → R → bool).
Context `{!Total (precedes before), !Transitive (precedes before)}.

Lemma order_by_sorted (l : list R) :
  StronglySorted (precedes before) (order_by before l).
Proof. apply StronglySorted_merge_sort; apply _. Qed.

Lemma order_by_perm (l : list R) : order_by before l ≡ₚ l.
Proof. apply merge_sort_Permutation. Qed.

(** What [LIMIT n] keeps comes first and what it drops comes after. *)
Lemma limit_order_by (n : nat) (l : list R) :
  let kept := limit n (order_by before l) in
  let dropped := drop n (order_by before l) in
  StronglySorted (precedes before) kept ∧
  kept ++ dropped ≡ₚ l ∧
  length kept = Nat.min n (length l) ∧
  ∀ a b, a ∈ kept → b ∈ dropped → precedes before a b.
Proof.
  intros kept dropped. subst kept dropped. unfold limit.
  pose proof (order_by_sorted l) as Hs.
  rewrite <- (take_drop n (order_by before l)) in Hs.
  apply StronglySorted_app in Hs as (Hkd & Hk & _).
  rewrite take_drop, length_take, (Permutation_length (order_by_perm l)).
  split_and!; [done|apply order_by_perm|done|].
  intros a b Ha Hb. by apply Hkd.
Qed.
End order_by.

#[global] Instance newest_first_total {R} (date created_at : R → string) :
  Total (precedes (newest_first date created_at)).
Proof. intros a b. apply desc_desc_total. Qed.
#[global] Instance newest_first_trans {R} (date created_at : R → string) :
  Transitive (precedes (newest_first date created_at)).
Proof. intros a b c. apply desc_desc_trans. Qed.

#[global] Instance by_key_total {R} (before : string → string → bool) (key : R → string)
  `{!Total (precedes before)} : Total (precedes (λ a b, before (key a) (key b))).
Proof. intros a b. apply (total (precedes before)). Qed.
#[global] Instance by_key_trans {R} (before : string → string → bool) (key : R → string)
  `{!Transitive (precedes before)} : Transitive (precedes (λ a b, before (key a) (key b))).
Proof. intros a b c. apply (transitivity (R := precedes before)). Qed.

(** ** Listings *)

Lemma StronglySorted_impl {A} (R1 R2 : relation A) (l : list A) :
  (∀ a b, R1 a b → R2 a b) → StronglySorted R1 l → StronglySorted R2 l.
Proof.
  intros HR. induction 1 as [|a l _ IH Hall]; constructor; [done|].
  eapply Forall_impl; [exact Hall|]. intros b. apply HR.
Qed.

Lemma newest_first_sorted {R} (date created_at : R → string) (l : list R) :
  StronglySorted (date_desc_created_desc date created_at)
    (order_by (newest_first date created_at) l).
Proof.
  eapply StronglySorted_impl; [|apply order_by_sorted; apply _].
  intros a b. unfold precedes, newest_first. by rewrite desc_desc_spec.
Qed.

(** C8. [get_workouts] returns every workout row, sorted by date
    descending and, within a date, by creation time descending. *)
Theorem get_workouts_newest_first (db : database) :
  ∃ l, get_workouts db = Ok (Reply 200 l, db) ∧
       l ≡ₚ rows (workouts db) ∧
       StronglySorted (date_desc_created_desc Workout.date Workout.created_at) l.
Proof.
  eexists. split; [reflexivity|]. split.
  - apply order_by_perm.
  - apply newest_first_sorted.
Qed.

(** C7. [get_meals] without a date returns the meals sorted by date
    descending, then creation time descending, and at most 50 of them:
    the first 50 of that order when there are more. *)
Theorem get_meals_newest_first_50 (db : database) :
  ∃ l dropped,
    get_meals None db = Ok (Reply 200 l, db) ∧
    StronglySorted (date_desc_created_desc Meal.date Meal.created_at) l ∧
    (length l ≤ 50)%nat ∧
    length l = Nat.min 50 (length (rows (meals db))) ∧
    l ++ dropped ≡ₚ rows (meals db) ∧
    ∀ a b, a ∈ l → b ∈ dropped →
           date_desc_created_desc Meal.date Meal.created_at a b.
Proof.
  pose proof (limit_order_by (newest_first Meal.date Meal.created_at) 50
                (rows (meals db))) as (_ & Hperm & Hlen & Hcut).
  eexists _, _. split; [reflexivity|]. split_and!.
  - unfold limit. pose proof (newest_first_sorted Meal.date Meal.created_at
                                (rows (meals db))) as Hs.
    rewrite <- (take_drop 50) in Hs. by apply StronglySorted_app in Hs as (_ & ? & _).
  - rewrite Hlen. lia.
  - exact Hlen.
  - exact Hperm.
  - intros a b Ha Hb. specialize (Hcut a b Ha Hb).
    unfold precedes, newest_first in Hcut. by rewrite desc_desc_spec in Hcut.
Qed.

(** C4, as the code has it. For a date that is not the empty string,
    [get_meals] returns exactly the meals of that date, newest first
    (creation time descending). *)
Theorem get_meals_on_date_newest_first (db : database) (d : string) :
  d ≠ EmptyString →
  ∃ l, get_meals (Some d) db = Ok (Reply 200 l, db) ∧
       l ≡ₚ filter (λ m, Meal.date m = d) (rows (meals db)) ∧
       (∀ m, m ∈ l ↔ m ∈ rows (meals db) ∧ Meal.date m = d) ∧
       StronglySorted (created_desc Meal.created_at) l.
Proof.
  intros Hd. destruct d as [|c d]; [done|].
  eexists. split; [reflexivity|].
  assert (order_by (λ a b, desc (Meal.created_at a) (Meal.created_at b))
            (on_date (String c d) (rows (meals db)))
          ≡ₚ filter (λ m, Meal.date m = String c d) (rows (meals db))) as Hperm
    by apply order_by_perm.
  split_and!; [done| |].
  - intros m. rewrite Hperm, list_elem_of_filter. tauto.
  - apply (order_by_sorted (λ a b, desc (Meal.created_at a) (Meal.created_at b))).
Qed.

Lemma get_meals_on_date_newest_first_witness :
  ∃ l, get_meals (Some "2024-01-01"%string) one_day = Ok (Reply 200 l, one_day) ∧
       l ≡ₚ filter (λ m, Meal.date m = "2024-01-01"%string) (rows (meals one_day)) ∧
       (∀ m, m ∈ l ↔ m ∈ rows (meals one_day) ∧ Meal.date m = "2024-01-01"%string) ∧
       StronglySorted (created_desc Meal.created_at) l.
Proof. apply (get_meals_on_date_newest_first one_day "2024-01-01"). discriminate. Defined.

(** [if date:] takes the empty string for no date. *)
Lemma get_meals_empty_date (db : database) :
  get_meals (Some EmptyString) db = get_meals None db.
Proof. reflexivity. Qed.

(** C4, as the specification has it, fails: the three meals were added at
    08:00, 12:30 and 19:00 of one day, and [get_meals] for that day
    returns them last one first, not in the order of insertion. *)
Lemma get_meals_on_date_not_oldest_first :
  add_meal "2024-01-01 08:00:00" (meal_payload "2024-01-01" "breakfast" "oats" 350)
    empty_db
  = Ok (Reply 201 (1, "Meal added successfully"%string), with_meals [breakfast] 1) ∧
  add_meal "2024-01-01 12:30:00" (meal_payload "2024-01-01" "lunch" "rice" 600)
    (with_meals [breakfast] 1)
  = Ok (Reply 201 (2, "Meal added successfully"%string), with_meals [breakfast; lunch] 2) ∧
  add_meal "2024-01-01 19:00:00" (meal_payload "2024-01-01" "dinner" "soup" 400)
    (with_meals [breakfast; lunch] 2)
  = Ok (Reply 201 (3, "Meal added successfully"%string),
        with_meals [breakfast; lunch; dinner] 3) ∧
  get_meals (Some "2024-01-01"%string) (with_meals [breakfast; lunch; dinner] 3)
  = Ok (Reply 200 [dinner; lunch; breakfast], with_meals [breakfast; lunch; dinner] 3) ∧
  [dinner; lunch; breakfast] ≠ [breakfast; lunch; dinner].
Proof. split_and!; [by vm_compute..|discriminate]. Qed.

(** ** Totals *)

Lemma bind_Ok {A B} (m : M A) (f : A → M B) (db db' : database) (a : A) :
  m db = Ok (a, db') → (m ≫= f) db = f a db'.
Proof. unfold mbind, M_bind. by intros ->. Qed.

Lemma bind_Raise {A B} (m : M A) (f : A → M B) (db : database) (e : exn) :
  m db = Raise e → (m ≫= f) db = Raise e.
Proof. unfold mbind, M_bind. by intros ->. Qed.

Lemma foldl_sum_step_Raise (e : exn) (cells : list (option Z)) :
  foldl sum_step (Raise e) cells = Raise e.
Proof. induction cells as [|c cells IH]; [done|]. exact IH. Qed.

Lemma foldl_sum_step_fits (a : option Z) (cells : list (option Z)) :
  sums_fit_from (default 0 a) cells = true →
  ∃ o, foldl sum_step (Ok a) cells = Ok o ∧
       or_0 o = default 0 a + sum_of_nullable id cells ∧
       (Forall (λ c, c = None) cells → o = a).
Proof.
  revert a. induction cells as [|[v|] cells IH]; intros a Hfit.
  - exists a. unfold or_0. simpl. split_and!; [done|lia|done].
  - simpl in Hfit. apply andb_prop in Hfit as [Hv Hfit].
    simpl. rewrite Hv.
    destruct (IH (Some (default 0 a + v)) Hfit) as (o & -> & Ho & _).
    exists o. split_and!; [done|simpl in *; lia|].
    intros HF. by inversion HF.
  - simpl in Hfit. simpl. destruct (IH a Hfit) as (o & -> & Ho & Hnone).
    exists o. split_and!; [done|simpl in *; lia|].
    intros HF. apply Hnone. by inversion HF.
Qed.

Lemma foldl_sum_step_overflow (a : option Z) (cells : list (option Z)) :
  sums_fit_from (default 0 a) cells = false →
  foldl sum_step (Ok a) cells = Raise DatabaseError.
Proof.
  revert a. induction cells as [|[v|] cells IH]; intros a Hfit; [done|..].
  - simpl in *.
    destruct (in_int64 (default 0 a + v)) eqn:Hv.
    + by apply (IH (Some (default 0 a + v))).
    + apply foldl_sum_step_Raise.
  - simpl in *. by apply IH.
Qed.

(** [SUM(col) or 0] is the sum when the running totals fit, and the
    statement fails when they do not. *)
Lemma select_sum_fits (cells : database → list (option Z)) (db : database) :
  sums_fit (cells db) = true →
  ∃ o, select_sum cells db = Ok (o, db) ∧ or_0 o = sum_of_nullable id (cells db).
Proof.
  intros Hfit. destruct (foldl_sum_step_fits None (cells db) Hfit) as (o & Ho & Hsum & _).
  exists o. unfold select_sum, sql_sum, lift. rewrite Ho. split; [done|].
  rewrite Hsum. simpl. lia.
Qed.

Lemma select_sum_overflow (cells : database → list (option Z)) (db : database) :
  sums_fit (cells db) = false → select_sum cells db = Raise DatabaseError.
Proof.
  intros Hfit. unfold select_sum, sql_sum, lift.
  by rewrite (foldl_sum_step_overflow None).
Qed.

Lemma sum_of_nullable_fmap {R} (col : R → option Z) (l : list R) :
  sum_of_nullable id (col <$> l) = sum_of_nullable col l.
Proof.
  unfold sum_of_nullable, sum_of. induction l as [|r l IH]; [done|].
  simpl. f_equal. exact IH.
Qed.

Lemma sum_of_nullable_Some {R} (col : R → Z) (l : list R) :
  sum_of_nullable (Some ∘ col) l = sum_of col l.
Proof. done. Qed.

(** C5, as the code has it. When the running totals of the three summed
    columns (in rowid order) fit in 64 bits, [get_stats] returns the
    number of workouts, the sums of their calories and durations, the sum
    of the calories of all meals, and consumed minus burned; every field
    is 0 when there is no workout and no meal. *)
Theorem get_stats_totals (db : database) :
  sums_fit (Some ∘ Workout.calories <$> rows (workouts db)) = true →
  sums_fit (Some ∘ Workout.duration <$> rows (workouts db)) = true →
  sums_fit (Some ∘ Meal.calories <$> rows (meals db)) = true →
  get_stats db =
    Ok (Reply 200
          (Stats (Z.of_nat (length (rows (workouts db))))
                 (sum_of Workout.calories (rows (workouts db)))
                 (sum_of Workout.duration (rows (workouts db)))
                 (sum_of Meal.calories (rows (meals db)))
                 (sum_of Meal.calories (rows (meals db))
                  - sum_of Workout.calories (rows (workouts db)))),
        db) ∧
  (rows (workouts db) = [] → rows (meals db) = [] →
   get_stats db = Ok (Reply 200 (Stats 0 0 0 0 0), db)).
Proof.
  intros Hb Hd Hc.
  destruct (select_sum_fits (λ db, Some ∘ Workout.calories <$> rows (workouts db)) db Hb)
    as (b & Eb & Sb).
  destruct (select_sum_fits (λ db, Some ∘ Workout.duration <$> rows (workouts db)) db Hd)
    as (d & Ed & Sd).
  destruct (select_sum_fits (λ db, Some ∘ Meal.calories <$> rows (meals db)) db Hc)
    as (c & Ec & Sc).
  cbv beta in Sb, Sd, Sc.
  rewrite sum_of_nullable_fmap, sum_of_nullable_Some in Sb.
  rewrite sum_of_nullable_fmap, sum_of_nullable_Some in Sd.
  rewrite sum_of_nullable_fmap, sum_of_nullable_Some in Sc.
  assert (get_stats db =
    Ok (Reply 200
          (Stats (Z.of_nat (length (rows (workouts db))))
                 (sum_of Workout.calories (rows (workouts db)))
                 (sum_of Workout.duration (rows (workouts db)))
                 (sum_of Meal.calories (rows (meals db)))
                 (sum_of Meal.calories (rows (meals db))
                  - sum_of Workout.calories (rows (workouts db)))),
        db)) as Heq.
  { unfold get_stats.
    erewrite bind_Ok by reflexivity.
    erewrite bind_Ok by exact Eb.
    erewrite bind_Ok by exact Ed.
    erewrite bind_Ok by exact Ec.
    by rewrite Sb, Sd, Sc. }
  split; [exact Heq|].
  intros Hw Hm. rewrite Heq, Hw, Hm. reflexivity.
Qed.

Lemma get_stats_totals_witness :
  get_stats one_day = Ok (Reply 200 (Stats 2 700 75 1350 650), one_day).
Proof.
  exact (proj1 (get_stats_totals one_day eq_refl eq_refl eq_refl)).
Defined.

(** C5, as the specification has it, fails: both workouts are accepted,
    and then [SUM(calories)] overflows and [get_stats] raises instead of
    returning a summary. *)
Lemma get_stats_integer_overflow :
  add_workout "2024-01-01 07:00:00"
    (workout_payload "2024-01-01" "row" 60 4611686018427387904) empty_db
  = Ok (Reply 201 (1, "Workout added successfully"%string),
        with_workouts [heavy 1 "2024-01-01 07:00:00"] 1) ∧
  add_workout "2024-01-01 09:00:00"
    (workout_payload "2024-01-01" "row" 60 4611686018427387904)
    (with_workouts [heavy 1 "2024-01-01 07:00:00"] 1)
  = Ok (Reply 201 (2, "Workout added successfully"%string),
        with_workouts [heavy 1 "2024-01-01 07:00:00"; heavy 2 "2024-01-01 09:00:00"] 2) ∧
  get_stats
    (with_workouts [heavy 1 "2024-01-01 07:00:00"; heavy 2 "2024-01-01 09:00:00"] 2)
  = Raise DatabaseError.
Proof. split_and!; by vm_compute. Qed.

Ltac step_sum_or_overflow :=
  match goal with
  | |- context [ (select_sum ?cells ≫= _) ?db ] =>
      let o := fresh "o" in
      let E := fresh "E" in
      let F := fresh "F" in
      destruct (sums_fit (cells db)) eqn:F;
      [destruct (select_sum_fits cells db F) as (o & E & _);
       erewrite (bind_Ok (select_sum cells)) by exact E
      |erewrite (bind_Raise (select_sum cells)) by (by apply select_sum_overflow);
       reflexivity]
  end.

(** X17. The condition on the running totals is the one that matters:
    when one of them leaves the 64 bits, [get_stats] raises. *)
Lemma get_stats_overflow (db : database) :
  sums_fit (Some ∘ Workout.calories <$> rows (workouts db))
  && sums_fit (Some ∘ Workout.duration <$> rows (workouts db))
  && sums_fit (Some ∘ Meal.calories <$> rows (meals db)) = false →
  get_stats db = Raise DatabaseError.
Proof.
  intros Hfit. unfold get_stats. erewrite bind_Ok by reflexivity.
  do 3 step_sum_or_overflow. done.
Qed.

(** C6, as the code has it. When the running totals of the four summed
    columns over the meals of the date fit in 64 bits, [get_daily_meals]
    returns exactly the meals of that date, oldest first, with the sums
    of their calories, protein, carbs and fats (a NULL adds nothing);
    without a meal on that date the list is empty and every total is 0. *)
Theorem get_daily_meals_totals (db : database) (d : string) :
  let day := filter (λ m, Meal.date m = d) (rows (meals db)) in
  sums_fit (Some ∘ Meal.calories <$> day) = true →
  sums_fit (Meal.protein <$> day) = true →
  sums_fit (Meal.carbs <$> day) = true →
  sums_fit (Meal.fats <$> day) = true →
  ∃ l,
    get_daily_meals d db =
      Ok (Reply 200 (l, Totals (sum_of Meal.calories day)
                               (sum_of_nullable Meal.protein day)
                               (sum_of_nullable Meal.carbs day)
                               (sum_of_nullable Meal.fats day)), db) ∧
    l ≡ₚ day ∧
    StronglySorted (created_asc Meal.created_at) l ∧
    (day = [] →
     get_daily_meals d db = Ok (Reply 200 ([], Totals 0 0 0 0), db)).
Proof.
  intros day Hc Hp Hb Hf.
  destruct (select_sum_fits (λ db, Some ∘ Meal.calories <$> on_date d (rows (meals db)))
              db Hc) as (c & Ec & Sc).
  destruct (select_sum_fits (λ db, Meal.protein <$> on_date d (rows (meals db)))
              db Hp) as (p & Ep & Sp).
  destruct (select_sum_fits (λ db, Meal.carbs <$> on_date d (rows (meals db)))
              db Hb) as (b & Eb & Sb).
  destruct (select_sum_fits (λ db, Meal.fats <$> on_date d (rows (meals db)))
              db Hf) as (f & Ef & Sf).
  cbv beta in Sc, Sp, Sb, Sf. fold day in Sc, Sp, Sb, Sf.
  unfold on_date in Sc, Sp, Sb, Sf. fold day in Sc, Sp, Sb, Sf.
  rewrite sum_of_nullable_fmap, sum_of_nullable_Some in Sc.
  rewrite sum_of_nullable_fmap in Sp.
  rewrite sum_of_nullable_fmap in Sb.
  rewrite sum_of_nullable_fmap in Sf.
  assert (get_daily_meals d db =
      Ok (Reply 200 (order_by (λ a b, asc (Meal.created_at a) (Meal.created_at b)) day,
                     Totals (sum_of Meal.calories day)
                            (sum_of_nullable Meal.protein day)
                            (sum_of_nullable Meal.carbs day)
                            (sum_of_nullable Meal.fats day)), db)) as Heq.
  { unfold get_daily_meals.
    erewrite bind_Ok by reflexivity.
    erewrite bind_Ok by exact Ec.
    erewrite bind_Ok by exact Ep.
    erewrite bind_Ok by exact Eb.
    erewrite bind_Ok by exact Ef.
    by rewrite Sc, Sp, Sb, Sf. }
  eexists. split; [exact Heq|]. split_and!.
  - apply order_by_perm.
  - apply (order_by_sorted (λ a b, asc (Meal.created_at a) (Meal.created_at b))).
  - intros Hday. rewrite Heq, Hday. reflexivity.
Qed.

Lemma get_daily_meals_totals_witness :
  ∃ l,
    get_daily_meals "2024-01-01" one_day =
      Ok (Reply 200 (l, Totals 1350 0 0 0), one_day) ∧
    l ≡ₚ [breakfast; lunch; dinner] ∧
    StronglySorted (created_asc Meal.created_at) l ∧
    ([breakfast; lunch; dinner] = [] →
     get_daily_meals "2024-01-01" one_day = Ok (Reply 200 ([], Totals 0 0 0 0), one_day)).
Proof.
  exact (get_daily_meals_totals one_day "2024-01-01" eq_refl eq_refl eq_refl eq_refl).
Defined.

(** C6, as the specification has it, fails: both meals are accepted, and
    then [SUM(calories)] over the date overflows and [get_daily_meals]
    raises instead of returning the meals and their totals. *)
Lemma get_daily_meals_integer_overflow :
  add_meal "2024-01-01 12:00:00"
    (meal_payload "2024-01-01" "dinner" "feast" 4611686018427387904) empty_db
  = Ok (Reply 201 (1, "Meal added successfully"%string),
        with_meals [feast 1 "2024-01-01 12:00:00"] 1) ∧
  add_meal "2024-01-01 20:00:00"
    (meal_payload "2024-01-01" "dinner" "feast" 4611686018427387904)
    (with_meals [feast 1 "2024-01-01 12:00:00"] 1)
  = Ok (Reply 201 (2, "Meal added successfully"%string),
        with_meals [feast 1 "2024-01-01 12:00:00"; feast 2 "2024-01-01 20:00:00"] 2) ∧
  get_daily_meals "2024-01-01"
    (with_meals [feast 1 "2024-01-01 12:00:00"; feast 2 "2024-01-01 20:00:00"] 2)
  = Raise DatabaseError.
Proof. split_and!; by vm_compute. Qed.

(** ** The calorie goal of a date *)

Lemma lift_bind {A B} (a : A) (f : A → M B) (db : database) :
  (lift (Ok a) ≫= f) db = f a db.
Proof. done. Qed.

Lemma max_rowid_ge {R} (rowid : R → Z) (l : list R) (r : R) :
  r ∈ l → rowid r ≤ max_rowid rowid l.
Proof.
  induction 1 as [r l|r r' l _ IH]; simpl; lia.
Qed.

Lemma new_rowid_above {R} (rowid : R → Z) (t : table R) (k : Z) :
  new_rowid rowid t = Ok k →
  seq t < k ∧ ∀ r, r ∈ rows t → rowid r < k.
Proof.
  unfold new_rowid. case_match; [|done]. intros [= <-]. split; [lia|].
  intros r Hr. apply (max_rowid_ge rowid) in Hr. lia.
Qed.

Lemma filter_filter_neg {A} (P : A → Prop) `{!∀ x, Decision (P x)} (l : list A) :
  filter P (filter (λ x, ¬ P x) l) = [].
Proof.
  induction l as [|x l IH]; [done|].
  rewrite filter_cons. case_decide; [|done].
  rewrite filter_cons. by case_decide.
Qed.

Lemma filter_idemp {A} (P : A → Prop) `{!∀ x, Decision (P x)} (l : list A) :
  filter P (filter P l) = filter P l.
Proof.
  induction l as [|x l IH]; [done|].
  rewrite filter_cons. case_decide; [|done].
  rewrite filter_cons. case_decide; [|done]. by rewrite IH.
Qed.

Lemma filter_all {A} (P : A → Prop) `{!∀ x, Decision (P x)} (l : list A) :
  (∀ x, x ∈ l → P x) → filter P l = l.
Proof.
  induction l as [|x l IH]; [done|]. intros HP.
  rewrite filter_cons. case_decide as Hx.
  - rewrite IH; [done|]. intros y Hy. apply HP. by right.
  - destruct Hx. apply HP. by left.
Qed.

(** What [set_calorie_goal] does with a date that is a string and a goal
    that is an integer. *)
Lemma set_calorie_goal_eq (now date : string) (daily_goal : Z) (db : database) :
  set_calorie_goal now (goal_payload date daily_goal) db =
  if in_int64 daily_goal then
    match new_rowid CalorieGoal.id (calorie_goals db) with
    | Ok rowid =>
        Ok (Reply 201 "Calorie goal set successfully"%string,
            set_calorie_goals
              (Table (filter (λ r, CalorieGoal.date r ≠ date) (rows (calorie_goals db))
                      ++ [CalorieGoal.Row rowid date daily_goal now]) rowid) db)
    | Raise e => Raise e
    | BeyondModel => BeyondModel
    end
  else Raise OverflowError.
Proof.
  unfold set_calorie_goal, try_except, goal_payload.
  unfold getitem. rewrite lookup_insert_eq, lookup_insert_ne, lookup_insert_eq by done.
  rewrite !lift_bind.
  unfold mbind at 1, M_bind, insert_or_replace_into_calorie_goals.
  simpl. unfold bind_int. destruct (in_int64 daily_goal); [|done]. simpl.
  unfold new_rowid. by destruct (Z.max _ _ <? max_int64).
Qed.

(** The call succeeds when the goal fits in 64 bits and a rowid is left. *)
Lemma set_calorie_goal_succeeds (now date : string) (daily_goal : Z) (db : database) :
  in_int64 daily_goal = true →
  Z.max (seq (calorie_goals db)) (max_rowid CalorieGoal.id (rows (calorie_goals db)))
    < max_int64 →
  ∃ db', set_calorie_goal now (goal_payload date daily_goal) db =
         Ok (Reply 201 "Calorie goal set successfully"%string, db').
Proof.
  intros Hg Hroom. rewrite set_calorie_goal_eq, Hg. unfold new_rowid.
  apply Z.ltb_lt in Hroom. rewrite Hroom. by eexists.
Qed.

(** Two calls for one date that both return: exactly one row holds that
    date; its goal is [g2], its [created_at] is the time of the second
    call and its id is above every id the table held before the second
    call; the rows of the other dates are the ones there were. *)
Lemma two_sets_returned (db db1 db2 : database) (now1 now2 d : string)
    (g1 g2 : Z) (r1 r2 : response string) :
  set_calorie_goal now1 (goal_payload d g1) db = Ok (r1, db1) →
  set_calorie_goal now2 (goal_payload d g2) db1 = Ok (r2, db2) →
  ∃ row,
    filter (λ r, CalorieGoal.date r = d) (rows (calorie_goals db2)) = [row] ∧
    CalorieGoal.daily_goal row = g2 ∧
    CalorieGoal.created_at row = now2 ∧
    (∀ old, old ∈ rows (calorie_goals db1) → CalorieGoal.id old < CalorieGoal.id row) ∧
    filter (λ r, CalorieGoal.date r ≠ d) (rows (calorie_goals db2))
    = filter (λ r, CalorieGoal.date r ≠ d) (rows (calorie_goals db)) ∧
    r1 = Reply 201 "Calorie goal set successfully"%string ∧
    r2 = Reply 201 "Calorie goal set successfully"%string.
Proof.
  rewrite !set_calorie_goal_eq.
  destruct (in_int64 g1); [|done].
  destruct (new_rowid CalorieGoal.id (calorie_goals db)) as [k1| |]; [|done..].
  intros [= <- <-].
  destruct (in_int64 g2); [|done].
  destruct (new_rowid _ _) as [k2| |] eqn:Hk2; [|done..].
  intros [= <- <-].
  apply new_rowid_above in Hk2 as [_ Habove].
  exists (CalorieGoal.Row k2 d g2 now2). simpl in *.
  split_and!; try done.
  - rewrite filter_app, (filter_filter_neg (λ r, CalorieGoal.date r = d)).
    rewrite filter_cons. simpl. by case_decide.
  - rewrite !filter_app, !filter_idemp, !filter_cons. simpl.
    repeat case_decide; try done. by rewrite filter_nil, !app_nil_r.
Qed.

(** ** Deleting by id *)

Lemma delete_where_id_in_range {R} (rowid : R → Z) (k : Z) (t : table R) :
  in_int64 k = true →
  let t1 := Table (filter (λ r, rowid r ≠ k) (rows t)) (seq t) in
  delete_where_id rowid k t = Ok t1 ∧
  delete_where_id rowid k t1 = Ok t1 ∧
  ((∀ r, r ∈ rows t → rowid r ≠ k) → t1 = t).
Proof.
  intros Hk t1. unfold delete_where_id, bind_int. rewrite Hk. simpl.
  split_and!; [done| |].
  - by rewrite filter_idemp.
  - intros Hno. subst t1. rewrite filter_all by done. by destruct t.
Qed.

(** C3, as the code has it. For an id in the signed 64-bit range, present
    or not, each of the three deletes answers 200, removes the rows of
    that id from its table and nothing else; a second delete of the same
    id answers 200 and changes nothing, and so does the delete of an id
    that no row has. *)
Theorem delete_twice (k : Z) (db : database) :
  in_int64 k = true →
  (∃ db1,
     delete_workout k db = Ok (Reply 200 "Workout deleted successfully"%string, db1) ∧
     db1 = set_workouts
             (Table (filter (λ r, Workout.id r ≠ k) (rows (workouts db)))
                    (seq (workouts db))) db ∧
     delete_workout k db1 = Ok (Reply 200 "Workout deleted successfully"%string, db1) ∧
     ((∀ r, r ∈ rows (workouts db) → Workout.id r ≠ k) → db1 = db)) ∧
  (∃ db1,
     delete_meal k db = Ok (Reply 200 "Meal deleted successfully"%string, db1) ∧
     db1 = set_meals
             (Table (filter (λ r, Meal.id r ≠ k) (rows (meals db)))
                    (seq (meals db))) db ∧
     delete_meal k db1 = Ok (Reply 200 "Meal deleted successfully"%string, db1) ∧
     ((∀ r, r ∈ rows (meals db) → Meal.id r ≠ k) → db1 = db)) ∧
  (∃ db1,
     delete_goal k db = Ok (Reply 200 "Goal deleted successfully"%string, db1) ∧
     db1 = set_goals
             (Table (filter (λ r, Goal.id r ≠ k) (rows (goals db)))
                    (seq (goals db))) db ∧
     delete_goal k db1 = Ok (Reply 200 "Goal deleted successfully"%string, db1) ∧
     ((∀ r, r ∈ rows (goals db) → Goal.id r ≠ k) → db1 = db)).
Proof.
  intros Hk. split_and!.
  - destruct (delete_where_id_in_range Workout.id k (workouts db) Hk) as (H1 & H2 & H3).
    eexists. split_and!; [|reflexivity| |].
    + unfold delete_workout, mbind, M_bind, delete_from_workouts. by rewrite H1.
    + unfold delete_workout, mbind, M_bind, delete_from_workouts. simpl.
      simpl in H2. by rewrite H2.
    + intros Hno. rewrite (H3 Hno). by destruct db.
  - destruct (delete_where_id_in_range Meal.id k (meals db) Hk) as (H1 & H2 & H3).
    eexists. split_and!; [|reflexivity| |].
    + unfold delete_meal, mbind, M_bind, delete_from_meals. by rewrite H1.
    + unfold delete_meal, mbind, M_bind, delete_from_meals. simpl.
      simpl in H2. by rewrite H2.
    + intros Hno. rewrite (H3 Hno). by destruct db.
  - destruct (delete_where_id_in_range Goal.id k (goals db) Hk) as (H1 & H2 & H3).
    eexists. split_and!; [|reflexivity| |].
    + unfold delete_goal, mbind, M_bind, delete_from_goals. by rewrite H1.
    + unfold delete_goal, mbind, M_bind, delete_from_goals. simpl.
      simpl in H2. by rewrite H2.
    + intros Hno. rewrite (H3 Hno). by destruct db.
Qed.

(** The id of [swim] is deleted twice from [one_day]. *)
Lemma delete_twice_witness :
  in_int64 2 = true ∧
  ∃ db1,
    delete_workout 2 one_day = Ok (Reply 200 "Workout deleted successfully"%string, db1) ∧
    db1 = set_workouts
            (Table (filter (λ r, Workout.id r ≠ 2) (rows (workouts one_day)))
                   (seq (workouts one_day))) one_day ∧
    delete_workout 2 db1 = Ok (Reply 200 "Workout deleted successfully"%string, db1) ∧
    ((∀ r, r ∈ rows (workouts one_day) → Workout.id r ≠ 2) → db1 = one_day).
Proof.
  split; [reflexivity|]. exact (proj1 (delete_twice 2 one_day eq_refl)).
Defined.

(** C3, as the specification has it, fails: the route accepts any run of
    digits, and an id of 2^63 cannot be bound to the statement. The
    delete raises [OverflowError], which nothing catches. *)
Lemma delete_id_out_of_range :
  delete_workout 9223372036854775808 one_day = Raise OverflowError ∧
  delete_meal 9223372036854775808 one_day = Raise OverflowError ∧
  delete_goal 9223372036854775808 one_day = Raise OverflowError.
Proof. split_and!; by vm_compute. Qed.

(** X18. A delete by an id outside the signed 64-bit range raises
    [OverflowError] in each of the three handlers, and nothing catches it. *)
Lemma delete_out_of_range (k : Z) (db : database) :
  in_int64 k = false →
  delete_workout k db = Raise OverflowError ∧
  delete_meal k db = Raise OverflowError ∧
  delete_goal k db = Raise OverflowError.
Proof.
  intros Hk.
  unfold delete_workout, delete_meal, delete_goal, mbind, M_bind,
    delete_from_workouts, delete_from_meals, delete_from_goals,
    delete_where_id, bind_int.
  by rewrite Hk.
Qed.

(** ** Reads *)

Lemma select_sum_cases (cells : database → list (option Z)) (db : database) :
  (∃ o, select_sum cells db = Ok (o, db)) ∨ select_sum cells db = Raise DatabaseError.
Proof.
  destruct (sums_fit (cells db)) eqn:Hfit.
  - left. destruct (select_sum_fits cells db Hfit) as (o & Ho & _). by exists o.
  - right. by apply select_sum_overflow.
Qed.

Ltac step_select_sum :=
  match goal with
  | |- context [ (select_sum ?cells ≫= _) ?db ] =>
      let o := fresh "o" in
      let E := fresh "E" in
      destruct (select_sum_cases cells db) as [[o E]|E];
      [erewrite (bind_Ok (select_sum cells)) by exact E
      |erewrite (bind_Raise (select_sum cells)) by exact E]
  end.

(** C10. No read handler changes a table: whatever the database and the
    arguments, the database after [get_workouts], [get_meals],
    [get_daily_meals], [get_calorie_goal], [get_goals] and [get_stats]
    is the one before. *)
Theorem reads_leave_database (db : database) (date : option string) (d : string) :
  db_after (get_workouts db) db = Some db ∧
  db_after (get_meals date db) db = Some db ∧
  db_after (get_daily_meals d db) db = Some db ∧
  db_after (get_calorie_goal d db) db = Some db ∧
  db_after (get_goals db) db = Some db ∧
  db_after (get_stats db) db = Some db.
Proof.
  split_and!; try reflexivity.
  - by destruct date as [[|c s]|].
  - unfold get_daily_meals. erewrite bind_Ok by reflexivity.
    repeat (step_select_sum; [|reflexivity]). reflexivity.
  - unfold get_stats. erewrite bind_Ok by reflexivity.
    repeat (step_select_sum; [|reflexivity]). reflexivity.
Qed.

(** ** Creating rows *)

(** C2, as the code has it. A create call whose payload lacks a required
    field is answered 400, and the database is the one before. *)
Theorem create_missing_field (s : store) (now : string) (data : pyval) (db : database) :
  lacks_required s data →
  create s now data db = Ok (bad_request, db).
Proof.
  intros Hlacks. destruct data as [| | | | | |d]; try by destruct s.
  destruct Hlacks as (k & Hk & Hnone).
  destruct s; simpl in Hk; set_unfold in Hk;
    unfold create, add_workout, add_meal, add_goal, try_except, getitem.
  - destruct (d !! "date"%string) eqn:E1; [|done]. rewrite lift_bind.
    destruct (d !! "type"%string) eqn:E2; [|done]. rewrite lift_bind.
    destruct (d !! "duration"%string) eqn:E3; [|done]. rewrite lift_bind.
    destruct (d !! "calories"%string) eqn:E4; [|done].
    destruct Hk as [-> | [-> | [-> | [-> | []]]]]; congruence.
  - destruct (d !! "date"%string) eqn:E1; [|done]. rewrite lift_bind.
    destruct (d !! "meal_type"%string) eqn:E2; [|done]. rewrite lift_bind.
    destruct (d !! "food_name"%string) eqn:E3; [|done]. rewrite lift_bind.
    destruct (d !! "calories"%string) eqn:E4; [|done].
    destruct Hk as [-> | [-> | [-> | [-> | []]]]]; congruence.
  - destruct (d !! "goal_type"%string) eqn:E1; [|done]. rewrite lift_bind.
    destruct (d !! "target_value"%string) eqn:E2; [|done].
    destruct Hk as [-> | [-> | []]]; congruence.
Qed.

Lemma create_missing_field_witness :
  create WorkoutStore "2024-01-01 07:00:00"
    (PDict (<[ "date"%string := PStr "2024-01-01" ]>
           (<[ "type"%string := PStr "run" ]>
           (<[ "calories"%string := PInt 300 ]> ∅))))
    one_day
  = Ok (bad_request, one_day).
Proof.
  apply create_missing_field. exists "duration"%string.
  split; [|reflexivity]. simpl. set_solver.
Defined.

(** C2, as the specification has it, fails for a field of the wrong
    shape: a date that is a number, and a duration that is a string or a
    boolean, are converted and stored, and the answer is 201. *)
Lemma add_workout_wrong_shape_accepted :
  add_workout "2024-01-01 07:00:00"
    (PDict (<[ "date"%string := PInt 20240101 ]>
           (<[ "type"%string := PStr "run" ]>
           (<[ "duration"%string := PInt 30 ]>
           (<[ "calories"%string := PInt 300 ]> ∅)))))
    empty_db
  = Ok (Reply 201 (1, "Workout added successfully"%string),
        with_workouts
          [Workout.Row 1 "20240101" "run" 30 300 (Some EmptyString) "2024-01-01 07:00:00"] 1) ∧
  add_workout "2024-01-01 07:00:00"
    (PDict (<[ "date"%string := PStr "2024-01-01" ]>
           (<[ "type"%string := PStr "run" ]>
           (<[ "duration"%string := PStr "30" ]>
           (<[ "calories"%string := PBool true ]> ∅)))))
    empty_db
  = Ok (Reply 201 (1, "Workout added successfully"%string),
        with_workouts
          [Workout.Row 1 "2024-01-01" "run" 30 1 (Some EmptyString) "2024-01-01 07:00:00"] 1).
Proof. split; by vm_compute. Qed.

(** The statements raise nothing that [except (KeyError, TypeError)]
    catches, so a 400 comes from a missing field and from nothing else. *)
Lemma result_bind_Raise {A B} (r : result A) (f : A → result B) (e : exn) :
  r ≫= f = Raise e → r = Raise e ∨ ∃ a, r = Ok a ∧ f a = Raise e.
Proof.
  destruct r as [a|e'|]; unfold mbind, result_bind; simpl.
  - intros H. right. by exists a.
  - intros [= ->]. by left.
  - done.
Qed.

Lemma bind_param_uncaught (v : pyval) (e : exn) :
  bind_param v = Raise e → KeyError_TypeError e = false.
Proof.
  destruct v as [|b|z| | | |]; simpl; unfold bind_int; try done.
  - by destruct b.
  - destruct (in_int64 z); [done|]. by intros [= <-].
  - by intros [= <-].
  - by intros [= <-].
Qed.

Lemma new_rowid_uncaught {R} (rowid : R → Z) (t : table R) (e : exn) :
  new_rowid rowid t = Raise e → KeyError_TypeError e = false.
Proof. unfold new_rowid. case_match; [done|]. by intros [= <-]. Qed.

Lemma text_not_null_uncaught (v : sqlval) (e : exn) :
  text_not_null v = Raise e → KeyError_TypeError e = false.
Proof. destruct v; simpl; [|done..]. by intros [= <-]. Qed.

Lemma integer_affinity_uncaught (v : sqlval) (e : exn) :
  integer_affinity v = Raise e → KeyError_TypeError e = false.
Proof. destruct v; simpl; try done. repeat case_match; done. Qed.

Lemma integer_not_null_uncaught (v : sqlval) (e : exn) :
  integer_not_null v = Raise e → KeyError_TypeError e = false.
Proof.
  unfold integer_not_null. intros [H|(a & _ & H)]%result_bind_Raise.
  - by eapply integer_affinity_uncaught.
  - destruct a; try done; by injection H as <-.
Qed.

Lemma integer_nullable_uncaught (v : sqlval) (e : exn) :
  integer_nullable v = Raise e → KeyError_TypeError e = false.
Proof.
  unfold integer_nullable. intros [H|(a & _ & H)]%result_bind_Raise.
  - by eapply integer_affinity_uncaught.
  - by destruct a.
Qed.

Ltac uncaught H :=
  repeat (apply result_bind_Raise in H as [H|(? & _ & H)];
          [by eauto using bind_param_uncaught, new_rowid_uncaught,
                text_not_null_uncaught, integer_not_null_uncaught,
                integer_nullable_uncaught|]);
  done.

Lemma insert_into_workouts_uncaught (now : string)
    (date type duration calories notes : pyval) (db : database) (e : exn) :
  insert_into_workouts now date type duration calories notes db = Raise e →
  KeyError_TypeError e = false.
Proof. unfold insert_into_workouts. intros H. uncaught H. Qed.

Lemma insert_into_meals_uncaught (now : string)
    (date meal_type food_name calories protein carbs fats notes : pyval)
    (db : database) (e : exn) :
  insert_into_meals now date meal_type food_name calories protein carbs fats notes db
  = Raise e →
  KeyError_TypeError e = false.
Proof. unfold insert_into_meals. intros H. uncaught H. Qed.

Lemma insert_into_goals_uncaught (now : string)
    (goal_type target_value deadline : pyval) (db : database) (e : exn) :
  insert_into_goals now goal_type target_value deadline db = Raise e →
  KeyError_TypeError e = false.
Proof. unfold insert_into_goals. intros H. uncaught H. Qed.

Ltac read_key_or_lack d key :=
  let v := fresh "v" in
  let E := fresh "K" in
  destruct (d !! key%string) as [v|] eqn:E;
  [rewrite lift_bind
  |intros _; exists key%string; split; [simpl; set_solver|exact E]].

Ltac run_insert_uncaught lem :=
  match goal with
  | |- context [ (?ins ≫= _) ?db ] =>
      let E := fresh "I" in
      let k := fresh "k" in
      let db1 := fresh "db1" in
      let e := fresh "e" in
      destruct (ins db) as [[k db1]|e|] eqn:E;
      [by erewrite (bind_Ok ins) by exact E
      |erewrite (bind_Raise ins) by exact E; by erewrite lem by exact E
      |unfold mbind at 1, M_bind; by rewrite E]
  end.

(** X16. A 400 is the answer to a missing field only: a field of the
    wrong shape never gets it. *)
Lemma create_400_only_when_missing (s : store) (now : string) (data : pyval)
    (db db' : database) (status : Z) (error : string) :
  create s now data db = Ok (ReplyError status error, db') →
  lacks_required s data.
Proof.
  destruct data as [| | | | | |d]; try done.
  destruct s; unfold create, add_workout, add_meal, add_goal, try_except, getitem, get.
  - read_key_or_lack d "date". read_key_or_lack d "type".
    read_key_or_lack d "duration". read_key_or_lack d "calories".
    rewrite lift_bind. run_insert_uncaught insert_into_workouts_uncaught.
  - read_key_or_lack d "date". read_key_or_lack d "meal_type".
    read_key_or_lack d "food_name". read_key_or_lack d "calories".
    rewrite !lift_bind. run_insert_uncaught insert_into_meals_uncaught.
  - read_key_or_lack d "goal_type". read_key_or_lack d "target_value".
    rewrite lift_bind. run_insert_uncaught insert_into_goals_uncaught.
Qed.

Lemma result_bind_Ok {A B} (r : result A) (f : A → result B) (b : B) :
  r ≫= f = Ok b → ∃ a, r = Ok a ∧ f a = Ok b.
Proof. destruct r as [a| |]; [|done..]. intros H. by exists a. Qed.

Ltac invert_binds H :=
  repeat (let a := fresh "a" in
          let E := fresh "E" in
          apply result_bind_Ok in H as (a & E & H)).

Lemma insert_into_workouts_Ok (now : string) (date type duration calories notes : pyval)
    (db db' : database) (k : Z) :
  insert_into_workouts now date type duration calories notes db = Ok (k, db') →
  ∃ row, db' = set_workouts (Table (rows (workouts db) ++ [row]) k) db ∧
         Workout.id row = k ∧
         Workout.created_at row = now ∧
         text_nullable <$> bind_param notes = Ok (Workout.notes row).
Proof.
  unfold insert_into_workouts. intros H. invert_binds H.
  injection H as <- <-. eexists. split_and!; try reflexivity.
  simpl. by rewrite E3.
Qed.

Lemma insert_into_meals_Ok (now : string)
    (date meal_type food_name calories protein carbs fats notes : pyval)
    (db db' : database) (k : Z) :
  insert_into_meals now date meal_type food_name calories protein carbs fats notes db
  = Ok (k, db') →
  ∃ row, db' = set_meals (Table (rows (meals db) ++ [row]) k) db ∧
         Meal.id row = k ∧
         Meal.created_at row = now ∧
         bind_param protein ≫= integer_nullable = Ok (Meal.protein row) ∧
         bind_param carbs ≫= integer_nullable = Ok (Meal.carbs row) ∧
         bind_param fats ≫= integer_nullable = Ok (Meal.fats row) ∧
         text_nullable <$> bind_param notes = Ok (Meal.notes row).
Proof.
  unfold insert_into_meals. intros H. invert_binds H.
  injection H as <- <-. eexists. split_and!; try reflexivity; simpl.
  - by rewrite E3.
  - by rewrite E4.
  - by rewrite E5.
  - by rewrite E6.
Qed.

Lemma insert_into_goals_Ok (now : string) (goal_type target_value deadline : pyval)
    (db db' : database) (k : Z) :
  insert_into_goals now goal_type target_value deadline db = Ok (k, db') →
  ∃ row, db' = set_goals (Table (rows (goals db) ++ [row]) k) db ∧
         Goal.id row = k ∧
         Goal.created_at row = now ∧
         text_nullable <$> bind_param deadline = Ok (Goal.deadline row).
Proof.
  unfold insert_into_goals. intros H. invert_binds H.
  injection H as <- <-. eexists. split_and!; try reflexivity.
  simpl. by rewrite E1.
Qed.

Ltac read_key d key :=
  let v := fresh "v" in
  let E := fresh "K" in
  destruct (d !! key%string) as [v|] eqn:E; [rewrite lift_bind|done].

Ltac run_insert :=
  match goal with
  | |- context [ (?ins ≫= _) ?db ] =>
      let E := fresh "I" in
      let k := fresh "k" in
      let db1 := fresh "db1" in
      let e := fresh "e" in
      destruct (ins db) as [[k db1]|e|] eqn:E;
      [erewrite (bind_Ok ins) by exact E
      |erewrite (bind_Raise ins) by exact E; by destruct e
      |unfold mbind at 1, M_bind; by rewrite E]
  end.

Lemma add_workout_201 (now : string) (d : gmap string pyval) (db db' : database)
    (k : Z) (msg : string) :
  add_workout now (PDict d) db = Ok (Reply 201 (k, msg), db') →
  ∃ date type duration calories,
    insert_into_workouts now date type duration calories
      (default (PStr EmptyString) (d !! "notes"%string)) db = Ok (k, db').
Proof.
  unfold add_workout, try_except, getitem, get.
  read_key d "date". read_key d "type". read_key d "duration". read_key d "calories".
  rewrite lift_bind. run_insert. intros [= <- <- <-]. eauto.
Qed.

Lemma add_meal_201 (now : string) (d : gmap string pyval) (db db' : database)
    (k : Z) (msg : string) :
  add_meal now (PDict d) db = Ok (Reply 201 (k, msg), db') →
  ∃ date meal_type food_name calories,
    insert_into_meals now date meal_type food_name calories
      (default (PInt 0) (d !! "protein"%string))
      (default (PInt 0) (d !! "carbs"%string))
      (default (PInt 0) (d !! "fats"%string))
      (default (PStr EmptyString) (d !! "notes"%string)) db = Ok (k, db').
Proof.
  unfold add_meal, try_except, getitem, get.
  read_key d "date". read_key d "meal_type". read_key d "food_name".
  read_key d "calories".
  rewrite !lift_bind. run_insert. intros [= <- <- <-]. eauto.
Qed.

Lemma add_goal_201 (now : string) (d : gmap string pyval) (db db' : database)
    (k : Z) (msg : string) :
  add_goal now (PDict d) db = Ok (Reply 201 (k, msg), db') →
  ∃ goal_type target_value,
    insert_into_goals now goal_type target_value
      (default PNone (d !! "deadline"%string)) db = Ok (k, db').
Proof.
  unfold add_goal, try_except, getitem, get.
  read_key d "goal_type". read_key d "target_value".
  rewrite lift_bind. run_insert. intros [= <- <- <-]. eauto.
Qed.

(** A create call that answers 201 has appended one row under the id it
    returns, and every optional field that the payload omits holds its
    default in that row. *)
Lemma created_row_defaults (now : string) (d : gmap string pyval) (db db' : database)
    (k : Z) (msg : string) :
  (add_workout now (PDict d) db = Ok (Reply 201 (k, msg), db') →
   ∃ row, rows (workouts db') = rows (workouts db) ++ [row] ∧
          Workout.id row = k ∧
          (d !! "notes"%string = None → Workout.notes row = Some EmptyString)) ∧
  (add_meal now (PDict d) db = Ok (Reply 201 (k, msg), db') →
   ∃ row, rows (meals db') = rows (meals db) ++ [row] ∧
          Meal.id row = k ∧
          (d !! "protein"%string = None → Meal.protein row = Some 0) ∧
          (d !! "carbs"%string = None → Meal.carbs row = Some 0) ∧
          (d !! "fats"%string = None → Meal.fats row = Some 0) ∧
          (d !! "notes"%string = None → Meal.notes row = Some EmptyString)) ∧
  (add_goal now (PDict d) db = Ok (Reply 201 (k, msg), db') →
   ∃ row, rows (goals db') = rows (goals db) ++ [row] ∧
          Goal.id row = k ∧
          (d !! "deadline"%string = None → Goal.deadline row = None)).
Proof.
  split_and!.
  - intros (date & type & duration & calories & H)%add_workout_201.
    apply insert_into_workouts_Ok in H as (row & -> & Hid & _ & Hnotes).
    exists row. split_and!; [done..|].
    intros Hnone. rewrite Hnone in Hnotes. by injection Hnotes.
  - intros (date & meal_type & food_name & calories & H)%add_meal_201.
    apply insert_into_meals_Ok in H as (row & -> & Hid & _ & Hp & Hc & Hf & Hnotes).
    exists row. split_and!; [done..| | | |].
    + intros Hnone. rewrite Hnone in Hp. by injection Hp.
    + intros Hnone. rewrite Hnone in Hc. by injection Hc.
    + intros Hnone. rewrite Hnone in Hf. by injection Hf.
    + intros Hnone. rewrite Hnone in Hnotes. by injection Hnotes.
  - intros (goal_type & target_value & H)%add_goal_201.
    apply insert_into_goals_Ok in H as (row & -> & Hid & _ & Hdeadline).
    exists row. split_and!; [done..|].
    intros Hnone. rewrite Hnone in Hdeadline. by injection Hdeadline.
Qed.

(** * More of the code *)

(** ** [init_db] *)

(** X1. [init_db] leaves the four tables in place: each one that was in
    the file keeps its rows and its counter, each one that was missing is
    there and empty; a second run changes nothing, and neither does a run
    on a file that has the four tables. *)
Theorem init_db_safe_every_time (f : storage) :
  (∃ db, tables (init_db f) = Some db ∧
         workouts db = default (Table [] 0) (stored_workouts f) ∧
         goals db = default (Table [] 0) (stored_goals f) ∧
         meals db = default (Table [] 0) (stored_meals f) ∧
         calorie_goals db = default (Table [] 0) (stored_calorie_goals f)) ∧
  init_db (init_db f) = init_db f ∧
  (∀ db, tables f = Some db → init_db f = f).
Proof.
  destruct f as [[w|] [g|] [m|] [c|]]; split_and!;
    try (eexists; split_and!; reflexivity); try reflexivity; intros db; by simpl.
Qed.

(** ** [get_goals] *)

(** X2. [get_goals] returns every goal row, the one created last first. *)
Theorem get_goals_newest_first (db : database) :
  ∃ l, get_goals db = Ok (Reply 200 l, db) ∧
       l ≡ₚ rows (goals db) ∧
       StronglySorted (created_desc Goal.created_at) l.
Proof.
  eexists. split; [reflexivity|]. split.
  - apply order_by_perm.
  - apply (order_by_sorted (λ a b, desc (Goal.created_at a) (Goal.created_at b))).
Qed.

(** ** A row created is a row listed *)

Ltac lookup_payload :=
  repeat first
    [ rewrite lookup_insert_eq
    | rewrite lookup_insert_ne by done
    | rewrite lookup_empty ].

Lemma add_workout_eq (now date type : string) (duration calories : Z) (db : database) :
  add_workout now (workout_payload date type duration calories) db =
  if in_int64 duration && in_int64 calories then
    match new_rowid Workout.id (workouts db) with
    | Ok k =>
        Ok (Reply 201 (k, "Workout added successfully"%string),
            set_workouts
              (Table (rows (workouts db)
                      ++ [Workout.Row k date type duration calories (Some EmptyString) now])
                     k) db)
    | Raise e => Raise e
    | BeyondModel => BeyondModel
    end
  else Raise OverflowError.
Proof.
  unfold add_workout, try_except, workout_payload, getitem, get.
  lookup_payload. rewrite !lift_bind.
  unfold mbind at 1, M_bind, insert_into_workouts.
  simpl. unfold bind_int.
  destruct (in_int64 duration); [|done]. simpl.
  destruct (in_int64 calories); [|done]. simpl.
  unfold new_rowid. by destruct (Z.max _ _ <? max_int64).
Qed.

Lemma add_meal_eq (now date meal_type food_name : string) (calories : Z) (db : database) :
  add_meal now (meal_payload date meal_type food_name calories) db =
  if in_int64 calories then
    match new_rowid Meal.id (meals db) with
    | Ok k =>
        Ok (Reply 201 (k, "Meal added successfully"%string),
            set_meals
              (Table (rows (meals db)
                      ++ [Meal.Row k date meal_type food_name calories
                            (Some 0) (Some 0) (Some 0) (Some EmptyString) now])
                     k) db)
    | Raise e => Raise e
    | BeyondModel => BeyondModel
    end
  else Raise OverflowError.
Proof.
  unfold add_meal, try_except, meal_payload, getitem, get.
  lookup_payload. rewrite !lift_bind.
  unfold mbind at 1, M_bind, insert_into_meals.
  simpl. unfold bind_int.
  destruct (in_int64 calories); [|done]. simpl.
  unfold new_rowid. by destruct (Z.max _ _ <? max_int64).
Qed.

Lemma add_goal_eq (now goal_type : string) (target_value : Z) (db : database) :
  add_goal now (goal_row_payload goal_type target_value) db =
  if in_int64 target_value then
    match new_rowid Goal.id (goals db) with
    | Ok k =>
        Ok (Reply 201 (k, "Goal added successfully"%string),
            set_goals
              (Table (rows (goals db) ++ [Goal.Row k goal_type target_value None now]) k)
              db)
    | Raise e => Raise e
    | BeyondModel => BeyondModel
    end
  else Raise OverflowError.
Proof.
  unfold add_goal, try_except, goal_row_payload, getitem, get.
  lookup_payload. rewrite !lift_bind.
  unfold mbind at 1, M_bind, insert_into_goals.
  simpl. unfold bind_int.
  destruct (in_int64 target_value); [|done]. simpl.
  unfold new_rowid. by destruct (Z.max _ _ <? max_int64).
Qed.

Lemma new_rowid_largest {R} (rowid : R → Z) (t : table R) :
  largest_rowid rowid t < max_int64 →
  new_rowid rowid t = Ok (largest_rowid rowid t + 1).
Proof.
  unfold new_rowid, largest_rowid. intros H%Z.ltb_lt. by rewrite H.
Qed.

Lemma largest_rowid_above {R} (rowid : R → Z) (t : table R) (r : R) :
  r ∈ rows t → rowid r < largest_rowid rowid t + 1.
Proof.
  intros Hr. apply (max_rowid_ge rowid) in Hr. unfold largest_rowid. lia.
Qed.

(** X3. A workout posted with a date, a type, and a duration and calories
    that fit in 64 bits, while a rowid is left, is answered 201 with an id
    above every id of the table, and [get_workouts] then lists the rows
    there were and one more: the row of that id with the submitted
    fields, empty notes and the time of the insert. *)
Theorem add_workout_then_get_workouts (db : database) (now date type : string)
    (duration calories : Z) :
  in_int64 duration = true →
  in_int64 calories = true →
  largest_rowid Workout.id (workouts db) < max_int64 →
  ∃ db' l,
    add_workout now (workout_payload date type duration calories) db
    = Ok (Reply 201 (largest_rowid Workout.id (workouts db) + 1,
                     "Workout added successfully"%string), db') ∧
    get_workouts db' = Ok (Reply 200 l, db') ∧
    l ≡ₚ Workout.Row (largest_rowid Workout.id (workouts db) + 1)
           date type duration calories (Some EmptyString) now
         :: rows (workouts db) ∧
    ∀ r, r ∈ rows (workouts db) →
         Workout.id r < largest_rowid Workout.id (workouts db) + 1.
Proof.
  intros Hd Hc Hroom. eexists _, _. split_and!.
  - rewrite add_workout_eq, Hd, Hc, new_rowid_largest by done. reflexivity.
  - reflexivity.
  - simpl. rewrite order_by_perm. by rewrite Permutation_app_comm.
  - intros r. apply largest_rowid_above.
Qed.

Lemma add_workout_then_get_workouts_witness :
  ∃ db' l,
    add_workout "2024-01-03 06:30:00" (workout_payload "2024-01-03" "yoga" 20 90) one_day
    = Ok (Reply 201 (3, "Workout added successfully"%string), db') ∧
    get_workouts db' = Ok (Reply 200 l, db') ∧
    l ≡ₚ Workout.Row 3 "2024-01-03" "yoga" 20 90 (Some EmptyString) "2024-01-03 06:30:00"
         :: [run; swim] ∧
    ∀ r, r ∈ [run; swim] → Workout.id r < 3.
Proof.
  exact (add_workout_then_get_workouts one_day "2024-01-03 06:30:00" "2024-01-03" "yoga"
           20 90 eq_refl eq_refl eq_refl).
Defined.

Lemma get_meals_on_date_eq (db : database) (d : string) :
  d ≠ EmptyString →
  get_meals (Some d) db =
  Ok (Reply 200 (order_by (λ a b, desc (Meal.created_at a) (Meal.created_at b))
                   (on_date d (rows (meals db)))), db).
Proof. by destruct d. Qed.

(** X4. A meal posted with the four required fields alone, calories in
    64 bits and a rowid left, is answered 201; the listing of its date
    then holds the meals that date had and the new row, with 0 for
    protein, carbs and fats, and the listing of any other date is the one
    it was. *)
Theorem add_meal_then_get_meals (db : database) (now date meal_type food_name : string)
    (calories : Z) :
  in_int64 calories = true →
  largest_rowid Meal.id (meals db) < max_int64 →
  date ≠ EmptyString →
  ∃ db' l,
    add_meal now (meal_payload date meal_type food_name calories) db
    = Ok (Reply 201 (largest_rowid Meal.id (meals db) + 1,
                     "Meal added successfully"%string), db') ∧
    get_meals (Some date) db' = Ok (Reply 200 l, db') ∧
    l ≡ₚ Meal.Row (largest_rowid Meal.id (meals db) + 1) date meal_type food_name
           calories (Some 0) (Some 0) (Some 0) (Some EmptyString) now
         :: filter (λ m, Meal.date m = date) (rows (meals db)) ∧
    ∀ d l', d ≠ date → d ≠ EmptyString →
            get_meals (Some d) db = Ok (Reply 200 l', db) →
            get_meals (Some d) db' = Ok (Reply 200 l', db').
Proof.
  intros Hc Hroom Hdate. eexists _, _. split_and!.
  - rewrite add_meal_eq, Hc, new_rowid_largest by done. reflexivity.
  - by apply get_meals_on_date_eq.
  - simpl. rewrite order_by_perm. unfold on_date.
    rewrite filter_app, filter_cons. simpl. case_decide; [|done].
    by rewrite filter_nil, Permutation_app_comm.
  - intros d l' Hne Hd. rewrite !get_meals_on_date_eq by done.
    intros [= <-]. simpl. unfold on_date. rewrite filter_app, filter_cons. simpl.
    case_decide; [congruence|]. by rewrite filter_nil, app_nil_r.
Qed.

Lemma add_meal_then_get_meals_witness :
  ∃ db' l,
    add_meal "2024-01-01 21:00:00" (meal_payload "2024-01-01" "snack" "apple" 80) one_day
    = Ok (Reply 201 (4, "Meal added successfully"%string), db') ∧
    get_meals (Some "2024-01-01"%string) db' = Ok (Reply 200 l, db') ∧
    l ≡ₚ Meal.Row 4 "2024-01-01" "snack" "apple" 80 (Some 0) (Some 0) (Some 0)
           (Some EmptyString) "2024-01-01 21:00:00"
         :: filter (λ m, Meal.date m = "2024-01-01"%string) (rows (meals one_day)) ∧
    ∀ d l', d ≠ "2024-01-01"%string → d ≠ EmptyString →
            get_meals (Some d) one_day = Ok (Reply 200 l', one_day) →
            get_meals (Some d) db' = Ok (Reply 200 l', db').
Proof.
  apply (add_meal_then_get_meals one_day "2024-01-01 21:00:00" "2024-01-01" "snack"
           "apple" 80); [reflexivity|reflexivity|discriminate].
Defined.

(** X5. A goal posted with a type and a target in 64 bits, while a rowid
    is left, is answered 201, and [get_goals] then lists the goals there
    were and the new row, whose deadline is NULL. *)
Theorem add_goal_then_get_goals (db : database) (now goal_type : string)
    (target_value : Z) :
  in_int64 target_value = true →
  largest_rowid Goal.id (goals db) < max_int64 →
  ∃ db' l,
    add_goal now (goal_row_payload goal_type target_value) db
    = Ok (Reply 201 (largest_rowid Goal.id (goals db) + 1,
                     "Goal added successfully"%string), db') ∧
    get_goals db' = Ok (Reply 200 l, db') ∧
    l ≡ₚ Goal.Row (largest_rowid Goal.id (goals db) + 1) goal_type target_value None now
         :: rows (goals db).
Proof.
  intros Ht Hroom. eexists _, _. split_and!.
  - rewrite add_goal_eq, Ht, new_rowid_largest by done. reflexivity.
  - reflexivity.
  - simpl. rewrite order_by_perm. by rewrite Permutation_app_comm.
Qed.

Lemma add_goal_then_get_goals_witness :
  ∃ db' l,
    add_goal "2024-01-01 10:00:00" (goal_row_payload "weight" 70) one_day
    = Ok (Reply 201 (1, "Goal added successfully"%string), db') ∧
    get_goals db' = Ok (Reply 200 l, db') ∧
    l ≡ₚ Goal.Row 1 "weight" 70 None "2024-01-01 10:00:00" :: rows (goals one_day).
Proof.
  exact (add_goal_then_get_goals one_day "2024-01-01 10:00:00" "weight" 70
           eq_refl eq_refl).
Defined.

(** ** The calorie goal of a date, set and read *)

Lemma filter_filter_impl {A} (P Q : A → Prop)
    `{!∀ x, Decision (P x), !∀ x, Decision (Q x)} (l : list A) :
  (∀ x, P x → Q x) → filter P (filter Q l) = filter P l.
Proof.
  intros HPQ. induction l as [|x l IH]; [done|].
  rewrite (filter_cons Q). case_decide as HQ.
  - rewrite !filter_cons. case_decide; by rewrite IH.
  - rewrite IH, filter_cons. case_decide as HP; [|done]. destruct HQ. by apply HPQ.
Qed.

(** X6. A calorie goal set for a date, with a goal in 64 bits and a rowid
    left, is answered 201, and [get_calorie_goal] for that date then
    returns the row just written, whatever the date held before; what it
    returns for any other date is what it returned before. *)
Theorem set_calorie_goal_then_get (db : database) (now d : string) (g : Z) :
  in_int64 g = true →
  largest_rowid CalorieGoal.id (calorie_goals db) < max_int64 →
  ∃ db',
    set_calorie_goal now (goal_payload d g) db
    = Ok (Reply 201 "Calorie goal set successfully"%string, db') ∧
    get_calorie_goal d db'
    = Ok (Reply 200
            (Some (CalorieGoal.Row (largest_rowid CalorieGoal.id (calorie_goals db) + 1)
                     d g now)), db') ∧
    ∀ d' o, d' ≠ d →
            get_calorie_goal d' db = Ok (Reply 200 o, db) →
            get_calorie_goal d' db' = Ok (Reply 200 o, db').
Proof.
  intros Hg Hroom. eexists. split_and!.
  - rewrite set_calorie_goal_eq, Hg, new_rowid_largest by done. reflexivity.
  - unfold get_calorie_goal, query, mbind, M_bind, mret, M_ret. simpl.
    rewrite filter_app, (filter_filter_neg (λ r, CalorieGoal.date r = d)).
    rewrite filter_cons. simpl. by case_decide.
  - intros d' o Hne.
    unfold get_calorie_goal, query, mbind, M_bind, mret, M_ret. simpl.
    intros [= <-]. rewrite filter_app, filter_cons. simpl.
    case_decide; [congruence|]. rewrite filter_nil, app_nil_r.
    rewrite (filter_filter_impl (λ r, CalorieGoal.date r = d')); [done|].
    intros r. congruence.
Qed.

Lemma set_calorie_goal_then_get_witness :
  ∃ db',
    set_calorie_goal "2024-01-01 09:00:00" (goal_payload "2024-01-01" 2000) one_day
    = Ok (Reply 201 "Calorie goal set successfully"%string, db') ∧
    get_calorie_goal "2024-01-01" db'
    = Ok (Reply 200
            (Some (CalorieGoal.Row 1 "2024-01-01" 2000 "2024-01-01 09:00:00")), db') ∧
    ∀ d' o, d' ≠ "2024-01-01"%string →
            get_calorie_goal d' one_day = Ok (Reply 200 o, one_day) →
            get_calorie_goal d' db' = Ok (Reply 200 o, db').
Proof.
  exact (set_calorie_goal_then_get one_day "2024-01-01 09:00:00" "2024-01-01" 2000
           eq_refl eq_refl).
Defined.

(** X7. [get_calorie_goal] always answers 200: with null exactly when no
    row holds the date, and, in a table with at most one row per date,
    with a row exactly when it is the row of that date. *)
Theorem get_calorie_goal_the_row (db : database) (d : string) :
  one_per_date (rows (calorie_goals db)) →
  ∃ o,
    get_calorie_goal d db = Ok (Reply 200 o, db) ∧
    (o = None ↔ ∀ r, r ∈ rows (calorie_goals db) → CalorieGoal.date r ≠ d) ∧
    (∀ r, o = Some r ↔ r ∈ rows (calorie_goals db) ∧ CalorieGoal.date r = d).
Proof.
  intros Hone. eexists. split; [reflexivity|].
  specialize (Hone d).
  destruct (filter (λ g, CalorieGoal.date g = d) (rows (calorie_goals db)))
    as [|x [|y l]] eqn:Hf; simpl in *; [| |lia].
  - split; [split; [|done]|].
    + intros _ r Hr Hd.
      assert (r ∈ filter (λ g, CalorieGoal.date g = d) (rows (calorie_goals db))) as Hin
        by by apply list_elem_of_filter.
      rewrite Hf in Hin. by apply elem_of_nil in Hin.
    + intros r. split; [done|]. intros [Hr Hd].
      assert (r ∈ filter (λ g, CalorieGoal.date g = d) (rows (calorie_goals db))) as Hin
        by by apply list_elem_of_filter.
      rewrite Hf in Hin. by apply elem_of_nil in Hin.
  - assert (∀ r, r ∈ rows (calorie_goals db) ∧ CalorieGoal.date r = d ↔ r = x) as Hx.
    { intros r.
      pose proof (list_elem_of_filter (λ g, CalorieGoal.date g = d)
                    (rows (calorie_goals db)) r) as Hin.
      rewrite Hf, list_elem_of_singleton in Hin. simpl in Hin. tauto. }
    split.
    + split; [done|]. intros Hno. destruct (proj2 (Hx x) eq_refl) as [Hr Hd].
      by destruct (Hno x Hr).
    + intros r. rewrite Hx. split; [by intros [= ->]|by intros ->].
Qed.

Lemma get_calorie_goal_the_row_witness :
  get_calorie_goal "2024-01-01" goal_day = Ok (Reply 200 (Some first_goal), goal_day) ∧
  ∃ o, get_calorie_goal "2024-01-02" goal_day = Ok (Reply 200 o, goal_day) ∧ o = None.
Proof.
  assert (one_per_date (rows (calorie_goals goal_day))) as Hone.
  { intros d. simpl. rewrite filter_cons, filter_nil. case_decide; simpl; lia. }
  split.
  - destruct (get_calorie_goal_the_row goal_day "2024-01-01" Hone)
      as (o & Heq & _ & Hrow).
    rewrite Heq. destruct (proj2 (Hrow first_goal)) as [].
    + split; [|reflexivity]. simpl. by left.
    + reflexivity.
  - destruct (get_calorie_goal_the_row goal_day "2024-01-02" Hone)
      as (o & Heq & Hnone & _).
    exists o. split; [exact Heq|]. apply Hnone.
    intros r Hr. simpl in Hr. apply list_elem_of_singleton in Hr as ->. discriminate.
Defined.

Lemma insert_or_replace_into_calorie_goals_uncaught (now : string)
    (date daily_goal : pyval) (db : database) (e : exn) :
  insert_or_replace_into_calorie_goals now date daily_goal db = Raise e →
  KeyError_TypeError e = false.
Proof. unfold insert_or_replace_into_calorie_goals. intros H. uncaught H. Qed.

(** X8. [set_calorie_goal] answers 400 and leaves the database as it was
    when the payload lacks the date or the goal (or is no object), and in
    no other case: a field that is present but null, a list or too large
    an integer is not answered 400. *)
Theorem set_calorie_goal_missing_field (now : string) (data : pyval) (db : database) :
  (lacks_calorie_goal_field data →
   set_calorie_goal now data db
   = Ok (ReplyError 400 "Invalid or missing data in request", db)) ∧
  (∀ status error db',
     set_calorie_goal now data db = Ok (ReplyError status error, db') →
     lacks_calorie_goal_field data).
Proof.
  destruct data as [| | | | | |d]; try done.
  unfold set_calorie_goal, try_except, getitem, lacks_calorie_goal_field.
  destruct (d !! "date"%string) as [v1|] eqn:K1; [rewrite lift_bind|by split; auto].
  destruct (d !! "daily_goal"%string) as [v2|] eqn:K2; [rewrite lift_bind|by split; auto].
  split; [by intros [?|?]|]. intros status error db'.
  destruct (insert_or_replace_into_calorie_goals now v1 v2 db) as [[k db1]|e|] eqn:I.
  - by erewrite bind_Ok by exact I.
  - erewrite bind_Raise by exact I.
    by erewrite insert_or_replace_into_calorie_goals_uncaught by exact I.
  - unfold mbind at 1, M_bind. by rewrite I.
Qed.

(** ** What a write does, and what the tables keep *)

Lemma insert_into_workouts_rowid (now : string) (date type duration calories notes : pyval)
    (db db' : database) (k : Z) :
  insert_into_workouts now date type duration calories notes db = Ok (k, db') →
  new_rowid Workout.id (workouts db) = Ok k.
Proof.
  unfold insert_into_workouts. intros H. invert_binds H. by injection H as <- <-.
Qed.

Lemma insert_into_meals_rowid (now : string)
    (date meal_type food_name calories protein carbs fats notes : pyval)
    (db db' : database) (k : Z) :
  insert_into_meals now date meal_type food_name calories protein carbs fats notes db
  = Ok (k, db') →
  new_rowid Meal.id (meals db) = Ok k.
Proof.
  unfold insert_into_meals. intros H. invert_binds H. by injection H as <- <-.
Qed.

Lemma insert_into_goals_rowid (now : string) (goal_type target_value deadline : pyval)
    (db db' : database) (k : Z) :
  insert_into_goals now goal_type target_value deadline db = Ok (k, db') →
  new_rowid Goal.id (goals db) = Ok k.
Proof.
  unfold insert_into_goals. intros H. invert_binds H. by injection H as <- <-.
Qed.

Lemma insert_or_replace_into_calorie_goals_Ok (now : string) (date daily_goal : pyval)
    (db db' : database) (k : Z) :
  insert_or_replace_into_calorie_goals now date daily_goal db = Ok (k, db') →
  ∃ row, new_rowid CalorieGoal.id (calorie_goals db) = Ok k ∧
         CalorieGoal.id row = k ∧
         db' = set_calorie_goals
                 (Table (filter (λ r, CalorieGoal.date r ≠ CalorieGoal.date row)
                           (rows (calorie_goals db)) ++ [row]) k) db.
Proof.
  unfold insert_or_replace_into_calorie_goals. intros H. invert_binds H.
  injection H as <- <-. by eexists (CalorieGoal.Row _ _ _ _).
Qed.

Ltac read_key_or_400 d key :=
  let v := fresh "v" in
  let E := fresh "K" in
  destruct (d !! key%string) as [v|] eqn:E;
  [rewrite lift_bind|intros [= <- <-]; by left].

Ltac insert_or_400 :=
  match goal with
  | |- context [ (?ins ≫= _) ?db ] =>
      let E := fresh "I" in
      let k := fresh "k" in
      let db1 := fresh "db1" in
      let e := fresh "e" in
      destruct (ins db) as [[k db1]|e|] eqn:E;
      [erewrite (bind_Ok ins) by exact E; intros [= <- <-]; right
      |erewrite (bind_Raise ins) by exact E;
       destruct (KeyError_TypeError e); [intros [= <- <-]; by left|done]
      |unfold mbind at 1, M_bind; by rewrite E]
  end.

Lemma add_workout_Ok (now : string) (data : pyval) (db db' : database)
    (r : response (Z * string)) :
  add_workout now data db = Ok (r, db') →
  (r = bad_request ∧ db' = db) ∨
  ∃ k row, r = Reply 201 (k, "Workout added successfully"%string) ∧
           new_rowid Workout.id (workouts db) = Ok k ∧
           Workout.id row = k ∧
           db' = set_workouts (Table (rows (workouts db) ++ [row]) k) db.
Proof.
  destruct data as [| | | | | |d]; try (intros [= <- <-]; by left).
  unfold add_workout, try_except, getitem, get.
  read_key_or_400 d "date". read_key_or_400 d "type".
  read_key_or_400 d "duration". read_key_or_400 d "calories".
  rewrite lift_bind. insert_or_400.
  pose proof (insert_into_workouts_rowid _ _ _ _ _ _ _ _ _ I) as Hk.
  apply insert_into_workouts_Ok in I as (row & -> & Hid & _). by exists k, row.
Qed.

Lemma add_meal_Ok (now : string) (data : pyval) (db db' : database)
    (r : response (Z * string)) :
  add_meal now data db = Ok (r, db') →
  (r = bad_request ∧ db' = db) ∨
  ∃ k row, r = Reply 201 (k, "Meal added successfully"%string) ∧
           new_rowid Meal.id (meals db) = Ok k ∧
           Meal.id row = k ∧
           db' = set_meals (Table (rows (meals db) ++ [row]) k) db.
Proof.
  destruct data as [| | | | | |d]; try (intros [= <- <-]; by left).
  unfold add_meal, try_except, getitem, get.
  read_key_or_400 d "date". read_key_or_400 d "meal_type".
  read_key_or_400 d "food_name". read_key_or_400 d "calories".
  rewrite !lift_bind. insert_or_400.
  pose proof (insert_into_meals_rowid _ _ _ _ _ _ _ _ _ _ _ _ I) as Hk.
  apply insert_into_meals_Ok in I as (row & -> & Hid & _). by exists k, row.
Qed.

Lemma add_goal_Ok (now : string) (data : pyval) (db db' : database)
    (r : response (Z * string)) :
  add_goal now data db = Ok (r, db') →
  (r = bad_request ∧ db' = db) ∨
  ∃ k row, r = Reply 201 (k, "Goal added successfully"%string) ∧
           new_rowid Goal.id (goals db) = Ok k ∧
           Goal.id row = k ∧
           db' = set_goals (Table (rows (goals db) ++ [row]) k) db.
Proof.
  destruct data as [| | | | | |d]; try (intros [= <- <-]; by left).
  unfold add_goal, try_except, getitem, get.
  read_key_or_400 d "goal_type". read_key_or_400 d "target_value".
  rewrite lift_bind. insert_or_400.
  pose proof (insert_into_goals_rowid _ _ _ _ _ _ _ I) as Hk.
  apply insert_into_goals_Ok in I as (row & -> & Hid & _). by exists k, row.
Qed.

Lemma set_calorie_goal_Ok (now : string) (data : pyval) (db db' : database)
    (r : response string) :
  set_calorie_goal now data db = Ok (r, db') →
  (r = ReplyError 400 "Invalid or missing data in request" ∧ db' = db) ∨
  ∃ k row, r = Reply 201 "Calorie goal set successfully"%string ∧
           new_rowid CalorieGoal.id (calorie_goals db) = Ok k ∧
           CalorieGoal.id row = k ∧
           db' = set_calorie_goals
                   (Table (filter (λ r, CalorieGoal.date r ≠ CalorieGoal.date row)
                             (rows (calorie_goals db)) ++ [row]) k) db.
Proof.
  destruct data as [| | | | | |d]; try (intros [= <- <-]; by left).
  unfold set_calorie_goal, try_except, getitem.
  read_key_or_400 d "date". read_key_or_400 d "daily_goal".
  insert_or_400.
  apply insert_or_replace_into_calorie_goals_Ok in I as (row & Hk & Hid & ->).
  by exists k, row.
Qed.

(** X9. A create call that returns has done one of two things: answered
    400 and left the database as it was, or answered 201 with an id above
    the counter of its table, appended one row of that id to its own
    table and moved the counter to it. The other tables are untouched. *)
Theorem create_one_row_or_nothing (s : store) (now : string) (data : pyval)
    (db db' : database) (r : response (Z * string)) :
  create s now data db = Ok (r, db') →
  (r = bad_request ∧ db' = db) ∨
  ∃ k msg,
    r = Reply 201 (k, msg) ∧ store_seq s db < k ∧ store_seq s db' = k ∧
    match s with
    | WorkoutStore =>
        ∃ row, Workout.id row = k ∧
               db' = set_workouts (Table (rows (workouts db) ++ [row]) k) db
    | MealStore =>
        ∃ row, Meal.id row = k ∧
               db' = set_meals (Table (rows (meals db) ++ [row]) k) db
    | GoalStore =>
        ∃ row, Goal.id row = k ∧
               db' = set_goals (Table (rows (goals db) ++ [row]) k) db
    end.
Proof.
  destruct s; simpl.
  - intros [?|(k & row & -> & [Hk _]%new_rowid_above & Hid & ->)]%add_workout_Ok;
      [by left|right].
    eexists _, _. split_and!; [done..|]. by exists row.
  - intros [?|(k & row & -> & [Hk _]%new_rowid_above & Hid & ->)]%add_meal_Ok;
      [by left|right].
    eexists _, _. split_and!; [done..|]. by exists row.
  - intros [?|(k & row & -> & [Hk _]%new_rowid_above & Hid & ->)]%add_goal_Ok;
      [by left|right].
    eexists _, _. split_and!; [done..|]. by exists row.
Qed.

Lemma create_one_row_or_nothing_witness :
  (Reply 201 (4, "Meal added successfully"%string) = bad_request ∧
   set_meals
     (Table ([breakfast; lunch; dinner]
             ++ [Meal.Row 4 "2024-01-01" "snack" "apple" 80 (Some 0) (Some 0) (Some 0)
                   (Some EmptyString) "2024-01-01 21:00:00"]) 4) one_day
   = one_day) ∨
  ∃ k msg,
    Reply 201 (4, "Meal added successfully"%string) = Reply 201 (k, msg) ∧
    store_seq MealStore one_day < k ∧
    store_seq MealStore
      (set_meals
         (Table ([breakfast; lunch; dinner]
                 ++ [Meal.Row 4 "2024-01-01" "snack" "apple" 80 (Some 0) (Some 0) (Some 0)
                       (Some EmptyString) "2024-01-01 21:00:00"]) 4) one_day) = k ∧
    ∃ row, Meal.id row = k ∧
           set_meals
             (Table ([breakfast; lunch; dinner]
                     ++ [Meal.Row 4 "2024-01-01" "snack" "apple" 80 (Some 0) (Some 0)
                           (Some 0) (Some EmptyString) "2024-01-01 21:00:00"]) 4) one_day
           = set_meals (Table (rows (meals one_day) ++ [row]) k) one_day.
Proof.
  apply (create_one_row_or_nothing MealStore "2024-01-01 21:00:00"
           (meal_payload "2024-01-01" "snack" "apple" 80) one_day).
  vm_compute. reflexivity.
Defined.

Lemma StronglySorted_filter {A} (R : relation A) (P : A → Prop)
    `{!∀ x, Decision (P x)} (l : list A) :
  StronglySorted R l → StronglySorted R (filter P l).
Proof.
  induction 1 as [|x l _ IH Hx]; [constructor|].
  rewrite filter_cons. case_decide; [|done].
  constructor; [done|]. apply Forall_forall. intros y [_ Hy]%list_elem_of_filter.
  by eapply Forall_forall in Hx.
Qed.

Lemma Forall_filter_keep {A} (Q : A → Prop) (P : A → Prop)
    `{!∀ x, Decision (P x)} (l : list A) :
  Forall Q l → Forall Q (filter P l).
Proof.
  rewrite !Forall_forall. intros HQ x [_ Hx]%list_elem_of_filter. by apply HQ.
Qed.

Lemma table_ok_filter {R} (rowid : R → Z) (P : R → Prop) `{!∀ x, Decision (P x)}
    (t : table R) :
  table_ok rowid t → table_ok rowid (Table (filter P (rows t)) (seq t)).
Proof.
  intros (Hs & Hb & Hseq). split; [|split]; simpl.
  - by apply StronglySorted_filter.
  - by apply Forall_filter_keep.
  - done.
Qed.

Lemma table_ok_append {R} (rowid : R → Z) (l : list R) (n k : Z) (row : R) :
  table_ok rowid (Table l n) → n < k ≤ max_int64 → rowid row = k →
  table_ok rowid (Table (l ++ [row]) k).
Proof.
  intros (Hs & Hb & Hseq) Hk Hid. simpl in *. split; [|split]; simpl.
  - apply StronglySorted_app_2; [|done|repeat constructor].
    intros a b Ha ->%list_elem_of_singleton.
    eapply Forall_forall in Hb; [|exact Ha]. simpl in Hb. lia.
  - apply Forall_app. split.
    + eapply Forall_impl; [exact Hb|]. simpl. intros; lia.
    + repeat constructor; lia.
  - lia.
Qed.

Lemma new_rowid_room {R} (rowid : R → Z) (t : table R) (k : Z) :
  new_rowid rowid t = Ok k → seq t < k ≤ max_int64.
Proof.
  unfold new_rowid. destruct (Z.max _ _ <? max_int64) eqn:H; [|done].
  apply Z.ltb_lt in H. intros [= <-]. lia.
Qed.

Lemma table_ok_insert {R} (rowid : R → Z) (t : table R) (k : Z) (row : R) :
  table_ok rowid t → new_rowid rowid t = Ok k → rowid row = k →
  table_ok rowid (Table (rows t ++ [row]) k).
Proof.
  intros Hok Hk%new_rowid_room Hid. destruct t as [l n].
  by apply (table_ok_append rowid l n).
Qed.

Lemma table_ok_replace {R} (rowid : R → Z) (P : R → Prop) `{!∀ x, Decision (P x)}
    (t : table R) (k : Z) (row : R) :
  table_ok rowid t → new_rowid rowid t = Ok k → rowid row = k →
  table_ok rowid (Table (filter P (rows t) ++ [row]) k).
Proof.
  intros Hok Hk%new_rowid_room Hid.
  apply (table_ok_append rowid _ (seq t)); [|done..].
  by apply table_ok_filter.
Qed.

Lemma one_per_date_replace (l : list CalorieGoal.row) (row : CalorieGoal.row) :
  one_per_date l →
  one_per_date (filter (λ r, CalorieGoal.date r ≠ CalorieGoal.date row) l ++ [row]).
Proof.
  intros Hone d. rewrite filter_app, length_app, filter_cons, filter_nil.
  destruct (decide (CalorieGoal.date row = d)) as [<-|Hne].
  - rewrite (filter_filter_neg (λ r, CalorieGoal.date r = CalorieGoal.date row)).
    simpl. lia.
  - rewrite (filter_filter_impl (λ r, CalorieGoal.date r = d));
      [|intros r; congruence].
    specialize (Hone d). simpl. lia.
Qed.

Lemma delete_where_id_Ok {R} (rowid : R → Z) (k : Z) (t t' : table R) :
  delete_where_id rowid k t = Ok t' →
  t' = Table (filter (λ r, rowid r ≠ k) (rows t)) (seq t).
Proof.
  unfold delete_where_id, bind_int. destruct (in_int64 k); [|done].
  simpl. by intros [= <-].
Qed.

Lemma get_daily_meals_db_after (d : string) (db : database) :
  db_after (get_daily_meals d db) db = Some db.
Proof.
  unfold get_daily_meals. erewrite bind_Ok by reflexivity.
  repeat (step_select_sum; [|reflexivity]). reflexivity.
Qed.

Lemma get_stats_db_after (db : database) : db_after (get_stats db) db = Some db.
Proof.
  unfold get_stats. erewrite bind_Ok by reflexivity.
  repeat (step_select_sum; [|reflexivity]). reflexivity.
Qed.

Lemma db_ok_empty : db_ok empty_db.
Proof.
  assert (∀ R (rowid : R → Z), table_ok rowid (Table [] 0)) as Hempty.
  { intros R rowid. split; [constructor|]. split; [constructor|]. by vm_compute. }
  unfold db_ok. simpl. split_and!; try apply Hempty.
  intros d. simpl. lia.
Qed.

Lemma serve_db_ok (q : request) (db db' : database) :
  db_ok db → serve q db = Some db' → db_ok db'.
Proof.
  intros (Hw & Hg & Hm & Hc & Hone). destruct q; simpl.
  - by intros [= <-].
  - destruct (add_workout now data db) as [[r db1]|e|] eqn:E; simpl;
      [|by intros [= <-]|done].
    intros [= <-]. apply add_workout_Ok in E as [[_ ->]|(k & row & _ & Hk & Hid & ->)];
      [done|].
    split_and!; try done. simpl. by apply table_ok_insert.
  - unfold delete_workout, mbind, M_bind, delete_from_workouts.
    destruct (delete_where_id _ _ _) as [t| |] eqn:E; simpl;
      [|by intros [= <-]|done].
    intros [= <-]. apply delete_where_id_Ok in E as ->.
    split_and!; try done. simpl. by apply table_ok_filter.
  - destruct date as [[|c s]|]; by intros [= <-].
  - destruct (add_meal now data db) as [[r db1]|e|] eqn:E; simpl;
      [|by intros [= <-]|done].
    intros [= <-]. apply add_meal_Ok in E as [[_ ->]|(k & row & _ & Hk & Hid & ->)];
      [done|].
    split_and!; try done. simpl. by apply table_ok_insert.
  - unfold delete_meal, mbind, M_bind, delete_from_meals.
    destruct (delete_where_id _ _ _) as [t| |] eqn:E; simpl;
      [|by intros [= <-]|done].
    intros [= <-]. apply delete_where_id_Ok in E as ->.
    split_and!; try done. simpl. by apply table_ok_filter.
  - rewrite get_daily_meals_db_after. by intros [= <-].
  - by intros [= <-].
  - destruct (set_calorie_goal now data db) as [[r db1]|e|] eqn:E; simpl;
      [|by intros [= <-]|done].
    intros [= <-].
    apply set_calorie_goal_Ok in E as [[_ ->]|(k & row & _ & Hk & Hid & ->)]; [done|].
    split_and!; try done; simpl.
    + by apply table_ok_replace.
    + by apply one_per_date_replace.
  - rewrite get_stats_db_after. by intros [= <-].
  - by intros [= <-].
  - destruct (add_goal now data db) as [[r db1]|e|] eqn:E; simpl;
      [|by intros [= <-]|done].
    intros [= <-]. apply add_goal_Ok in E as [[_ ->]|(k & row & _ & Hk & Hid & ->)];
      [done|].
    split_and!; try done. simpl. by apply table_ok_insert.
  - unfold delete_goal, mbind, M_bind, delete_from_goals.
    destruct (delete_where_id _ _ _) as [t| |] eqn:E; simpl;
      [|by intros [= <-]|done].
    intros [= <-]. apply delete_where_id_Ok in E as ->.
    split_and!; try done. simpl. by apply table_ok_filter.
Qed.

(** X10. Whatever requests are served, in whatever order, a database that
    [init_db] made keeps its shape: in each table the ids grow along the
    rows, so no two rows share an id; every id lies between 1 and the
    counter of its table; and no two calorie goals hold the same date. *)
Theorem served_database_ok (qs : list request) (db db' : database) :
  db_ok db → serve_all qs db = Some db' → db_ok db'.
Proof.
  revert db. induction qs as [|q qs IH]; intros db Hok; simpl.
  - by intros [= <-].
  - destruct (serve q db) as [db1|] eqn:E; [|done].
    apply IH. by eapply serve_db_ok.
Qed.

Lemma served_database_ok_witness :
  db_ok (set_calorie_goals
           (Table [CalorieGoal.Row 2 "2024-01-01" 2200 "2024-01-01 09:30:00"] 2)
           (with_workouts [] 1)).
Proof.
  apply (served_database_ok
           [POST_workouts "2024-01-01 07:00:00" (workout_payload "2024-01-01" "run" 30 300);
            POST_calorie_goals "2024-01-01 09:00:00" (goal_payload "2024-01-01" 2000);
            DELETE_workouts 1;
            GET_stats;
            POST_calorie_goals "2024-01-01 09:30:00" (goal_payload "2024-01-01" 2200)]
           empty_db).
  - exact db_ok_empty.
  - vm_compute. reflexivity.
Defined.

Lemma create_201_seq (s : store) (now : string) (data : pyval) (db db' : database)
    (k : Z) (msg : string) :
  create s now data db = Ok (Reply 201 (k, msg), db') →
  store_seq s db < k ∧ store_seq s db' = k.
Proof.
  destruct s; simpl.
  - intros [[? _]|(k' & row & [= <- _] & [Hk _]%new_rowid_above & _ & ->)]%add_workout_Ok;
      done.
  - intros [[? _]|(k' & row & [= <- _] & [Hk _]%new_rowid_above & _ & ->)]%add_meal_Ok;
      done.
  - intros [[? _]|(k' & row & [= <- _] & [Hk _]%new_rowid_above & _ & ->)]%add_goal_Ok;
      done.
Qed.

Lemma serve_seq_mono (s : store) (q : request) (db db' : database) :
  serve q db = Some db' → store_seq s db ≤ store_seq s db'.
Proof.
  destruct q; simpl.
  - by intros [= <-].
  - destruct (add_workout now data db) as [[r db1]|e|] eqn:E; simpl;
      [|by intros [= <-]|done].
    intros [= <-].
    apply add_workout_Ok in E
      as [[_ ->]|(k & row & _ & [Hk _]%new_rowid_above & _ & ->)]; [done|].
    destruct s; simpl; lia.
  - unfold delete_workout, mbind, M_bind, delete_from_workouts.
    destruct (delete_where_id _ _ _) as [t| |] eqn:E; simpl;
      [|by intros [= <-]|done].
    intros [= <-]. apply delete_where_id_Ok in E as ->. by destruct s.
  - destruct date as [[|c s']|]; by intros [= <-].
  - destruct (add_meal now data db) as [[r db1]|e|] eqn:E; simpl;
      [|by intros [= <-]|done].
    intros [= <-].
    apply add_meal_Ok in E
      as [[_ ->]|(k & row & _ & [Hk _]%new_rowid_above & _ & ->)]; [done|].
    destruct s; simpl; lia.
  - unfold delete_meal, mbind, M_bind, delete_from_meals.
    destruct (delete_where_id _ _ _) as [t| |] eqn:E; simpl;
      [|by intros [= <-]|done].
    intros [= <-]. apply delete_where_id_Ok in E as ->. by destruct s.
  - rewrite get_daily_meals_db_after. by intros [= <-].
  - by intros [= <-].
  - destruct (set_calorie_goal now data db) as [[r db1]|e|] eqn:E; simpl;
      [|by intros [= <-]|done].
    intros [= <-].
    apply set_calorie_goal_Ok in E as [[_ ->]|(k & row & _ & _ & _ & ->)]; [done|].
    by destruct s.
  - rewrite get_stats_db_after. by intros [= <-].
  - by intros [= <-].
  - destruct (add_goal now data db) as [[r db1]|e|] eqn:E; simpl;
      [|by intros [= <-]|done].
    intros [= <-].
    apply add_goal_Ok in E
      as [[_ ->]|(k & row & _ & [Hk _]%new_rowid_above & _ & ->)]; [done|].
    destruct s; simpl; lia.
  - unfold delete_goal, mbind, M_bind, delete_from_goals.
    destruct (delete_where_id _ _ _) as [t| |] eqn:E; simpl;
      [|by intros [= <-]|done].
    intros [= <-]. apply delete_where_id_Ok in E as ->. by destruct s.
Qed.

Lemma serve_all_seq_mono (s : store) (qs : list request) (db db' : database) :
  serve_all qs db = Some db' → store_seq s db ≤ store_seq s db'.
Proof.
  revert db. induction qs as [|q qs IH]; intros db; simpl.
  - by intros [= <-].
  - destruct (serve q db) as [db1|] eqn:E; [|done].
    intros H. apply (serve_seq_mono s) in E. apply IH in H. lia.
Qed.

(** X11. An id is never given twice: of two create calls on the same
    store that are answered 201, the later one returns the larger id,
    whatever requests were served in between, deletes of the first row
    included. *)
Theorem ids_never_reused (s : store) (now1 now2 : string) (data1 data2 : pyval)
    (qs : list request) (db db1 db2 db3 : database) (k1 k2 : Z) (msg1 msg2 : string) :
  create s now1 data1 db = Ok (Reply 201 (k1, msg1), db1) →
  serve_all qs db1 = Some db2 →
  create s now2 data2 db2 = Ok (Reply 201 (k2, msg2), db3) →
  k1 < k2.
Proof.
  intros [_ H1]%create_201_seq Hqs%(serve_all_seq_mono s) [H2 _]%create_201_seq. lia.
Qed.

Lemma ids_never_reused_witness : 1 < 2.
Proof.
  apply (ids_never_reused WorkoutStore "2024-01-01 07:00:00" "2024-01-02 07:00:00"
           (workout_payload "2024-01-01" "run" 30 300)
           (workout_payload "2024-01-02" "run" 30 300)
           [DELETE_workouts 1; GET_workouts]
           empty_db (with_workouts [run] 1) (with_workouts [] 1)
           (with_workouts
              [Workout.Row 2 "2024-01-02" "run" 30 300 (Some EmptyString)
                 "2024-01-02 07:00:00"] 2)
           1 2 "Workout added successfully" "Workout added successfully");
    vm_compute; reflexivity.
Defined.

Lemma max_rowid_nonneg {R} (rowid : R → Z) (l : list R) : 0 ≤ max_rowid rowid l.
Proof. induction l as [|r l IH]; simpl; lia. Qed.

Lemma new_rowid_in_int64 {R} (rowid : R → Z) (t : table R) (k : Z) :
  new_rowid rowid t = Ok k → in_int64 k = true.
Proof.
  unfold new_rowid. pose proof (max_rowid_nonneg rowid (rows t)) as Hpos.
  destruct (Z.max _ _ <? max_int64) eqn:H; [|done].
  apply Z.ltb_lt in H. intros [= <-].
  assert (min_int64 ≤ 0) as Hmin by by vm_compute.
  unfold in_int64. apply andb_true_intro. split; apply Z.leb_le; lia.
Qed.

Lemma delete_the_new_row {R} (rowid : R → Z) (t : table R) (row : R) (k : Z) :
  new_rowid rowid t = Ok k → rowid row = k →
  delete_where_id rowid k (Table (rows t ++ [row]) k) = Ok (Table (rows t) k).
Proof.
  intros Hk Hid. pose proof (new_rowid_in_int64 _ _ _ Hk) as Hin.
  apply new_rowid_above in Hk as [_ Habove].
  unfold delete_where_id, bind_int. rewrite Hin. simpl.
  rewrite filter_app, filter_cons, filter_nil. case_decide; [done|].
  rewrite app_nil_r, filter_all; [done|].
  intros r Hr. specialize (Habove r Hr). lia.
Qed.

(** X12. A row created and then deleted by the id that the create call
    returned leaves the rows of its table as they were before the two
    calls; only the counter of the table has moved to that id. *)
Theorem create_then_delete (now : string) (data : pyval) (db db1 : database)
    (k : Z) (msg : string) :
  (add_workout now data db = Ok (Reply 201 (k, msg), db1) →
   delete_workout k db1
   = Ok (Reply 200 "Workout deleted successfully"%string,
         set_workouts (Table (rows (workouts db)) k) db)) ∧
  (add_meal now data db = Ok (Reply 201 (k, msg), db1) →
   delete_meal k db1
   = Ok (Reply 200 "Meal deleted successfully"%string,
         set_meals (Table (rows (meals db)) k) db)) ∧
  (add_goal now data db = Ok (Reply 201 (k, msg), db1) →
   delete_goal k db1
   = Ok (Reply 200 "Goal deleted successfully"%string,
         set_goals (Table (rows (goals db)) k) db)).
Proof.
  split_and!.
  - intros [[? _]|(k' & row & [= <- _] & Hk & Hid & ->)]%add_workout_Ok; [done|].
    unfold delete_workout, mbind, M_bind, delete_from_workouts. simpl.
    by rewrite (delete_the_new_row Workout.id (workouts db) row).
  - intros [[? _]|(k' & row & [= <- _] & Hk & Hid & ->)]%add_meal_Ok; [done|].
    unfold delete_meal, mbind, M_bind, delete_from_meals. simpl.
    by rewrite (delete_the_new_row Meal.id (meals db) row).
  - intros [[? _]|(k' & row & [= <- _] & Hk & Hid & ->)]%add_goal_Ok; [done|].
    unfold delete_goal, mbind, M_bind, delete_from_goals. simpl.
    by rewrite (delete_the_new_row Goal.id (goals db) row).
Qed.

Lemma create_then_delete_witness :
  delete_workout 3
    (set_workouts
       (Table ([run; swim]
               ++ [Workout.Row 3 "2024-01-03" "yoga" 20 90 (Some EmptyString)
                     "2024-01-03 06:30:00"]) 3) one_day)
  = Ok (Reply 200 "Workout deleted successfully"%string,
        set_workouts (Table (rows (workouts one_day)) 3) one_day).
Proof.
  apply (proj1 (create_then_delete "2024-01-03 06:30:00"
                  (workout_payload "2024-01-03" "yoga" 20 90) one_day _ 3
                  "Workout added successfully")).
  vm_compute. reflexivity.
Defined.

Lemma set_calorie_goal_missing_field_witness :
  set_calorie_goal "2024-01-01 09:00:00"
    (PDict (<[ "date"%string := PStr "2024-01-01" ]> ∅)) one_day
  = Ok (ReplyError 400 "Invalid or missing data in request", one_day).
Proof.
  apply (proj1 (set_calorie_goal_missing_field "2024-01-01 09:00:00"
                  (PDict (<[ "date"%string := PStr "2024-01-01" ]> ∅)) one_day)).
  unfold lacks_calorie_goal_field. right. vm_compute. reflexivity.
Defined.

(** ** The two listings of a date *)

Lemma StronglySorted_reverse {A} (R : relation A) (l : list A) :
  StronglySorted R l → StronglySorted (flip R) (reverse l).
Proof.
  induction 1 as [|x l _ IH Hx]; [constructor|].
  rewrite reverse_cons. apply StronglySorted_app_2; [|done|repeat constructor].
  intros a b Ha ->%list_elem_of_singleton. rewrite elem_of_reverse in Ha.
  unfold flip. eapply Forall_forall in Hx; [exact Hx|exact Ha].
Qed.

Lemma NoDup_fmap_eq {A B} (f : A → B) (l : list A) (x y : A) :
  NoDup (f <$> l) → x ∈ l → y ∈ l → f x = f y → x = y.
Proof.
  induction l as [|z l IH]; [by intros _ ?%elem_of_nil|].
  rewrite fmap_cons, NoDup_cons.
  intros [Hz Hl] Hx Hy Hf.
  apply elem_of_cons in Hx as [->|Hx]; apply elem_of_cons in Hy as [->|Hy].
  - done.
  - destruct Hz. rewrite Hf. by apply list_elem_of_fmap_2.
  - destruct Hz. rewrite <- Hf. by apply list_elem_of_fmap_2.
  - by apply IH.
Qed.

Lemma order_by_desc_reverse_asc {R} (key : R → string) (l : list R) :
  NoDup (key <$> l) →
  order_by (λ a b, desc (key a) (key b)) l
  = reverse (order_by (λ a b, asc (key a) (key b)) l).
Proof.
  intros Hnodup.
  apply (StronglySorted_unique_strong (precedes (λ a b, desc (key a) (key b)))).
  - intros a b Ha Hb Hab Hba.
    rewrite order_by_perm in Ha.
    rewrite elem_of_reverse, order_by_perm in Hb.
    apply (NoDup_fmap_eq key l); [done..|].
    unfold precedes, desc in Hab, Hba. by apply String.leb_antisym.
  - apply (order_by_sorted (λ a b, desc (key a) (key b))).
  - apply (StronglySorted_reverse (precedes (λ a b, asc (key a) (key b)))).
    apply (order_by_sorted (λ a b, asc (key a) (key b))).
  - by rewrite reverse_Permutation, !order_by_perm.
Qed.

Lemma get_daily_meals_Ok (d : string) (db db' : database) (l : list Meal.row) (t : totals) :
  get_daily_meals d db = Ok (Reply 200 (l, t), db') →
  l = order_by (λ a b, asc (Meal.created_at a) (Meal.created_at b))
        (on_date d (rows (meals db))).
Proof.
  unfold get_daily_meals. erewrite bind_Ok by reflexivity.
  repeat (step_select_sum; [|done]). by intros [= <- _].
Qed.

(** X13. When the meals of a date have creation times that all differ,
    the listing of that date by [get_meals] is the list of
    [get_daily_meals] read backwards. *)
Theorem get_meals_reverses_daily (db : database) (d : string) (l : list Meal.row)
    (t : totals) :
  d ≠ EmptyString →
  NoDup (Meal.created_at <$> filter (λ m, Meal.date m = d) (rows (meals db))) →
  get_daily_meals d db = Ok (Reply 200 (l, t), db) →
  get_meals (Some d) db = Ok (Reply 200 (reverse l), db).
Proof.
  intros Hd Hnodup ->%get_daily_meals_Ok.
  rewrite get_meals_on_date_eq by done.
  by rewrite (order_by_desc_reverse_asc Meal.created_at).
Qed.

Lemma get_meals_reverses_daily_witness :
  get_meals (Some "2024-01-01"%string) one_day
  = Ok (Reply 200 (reverse [breakfast; lunch; dinner]), one_day).
Proof.
  apply (get_meals_reverses_daily one_day "2024-01-01" [breakfast; lunch; dinner]
           (Totals 1350 0 0 0)).
  - discriminate.
  - apply (bool_decide_unpack _). vm_compute. exact I.
  - vm_compute. reflexivity.
Defined.

(** X14. With at most 50 meals in the table, [get_meals] without a date
    returns all of them. *)
Theorem get_meals_all_when_few (db : database) :
  (length (rows (meals db)) ≤ 50)%nat →
  ∃ l, get_meals None db = Ok (Reply 200 l, db) ∧ l ≡ₚ rows (meals db).
Proof.
  intros Hlen. eexists. split; [reflexivity|].
  unfold limit. rewrite take_ge; [apply order_by_perm|].
  by rewrite (Permutation_length (order_by_perm _ _)).
Qed.

Lemma get_meals_all_when_few_witness :
  ∃ l, get_meals None one_day = Ok (Reply 200 l, one_day) ∧ l ≡ₚ rows (meals one_day).
Proof. apply (get_meals_all_when_few one_day). simpl. lia. Defined.

(** X15. When a running total of calories, protein, carbs or fats over
    the meals of the date leaves the 64 bits, [get_daily_meals] raises
    and returns no listing. *)
Theorem get_daily_meals_overflow (db : database) (d : string) :
  sums_fit (Some ∘ Meal.calories <$> on_date d (rows (meals db)))
  && sums_fit (Meal.protein <$> on_date d (rows (meals db)))
  && sums_fit (Meal.carbs <$> on_date d (rows (meals db)))
  && sums_fit (Meal.fats <$> on_date d (rows (meals db))) = false →
  get_daily_meals d db = Raise DatabaseError.
Proof.
  intros Hfit. unfold get_daily_meals. erewrite bind_Ok by reflexivity.
  do 4 step_sum_or_overflow. done.
Qed.

Lemma get_daily_meals_overflow_witness :
  get_daily_meals "2024-01-01"
    (with_meals [feast 1 "2024-01-01 12:00:00"; feast 2 "2024-01-01 20:00:00"] 2)
  = Raise DatabaseError.
Proof.
  apply (get_daily_meals_overflow
           (with_meals [feast 1 "2024-01-01 12:00:00"; feast 2 "2024-01-01 20:00:00"] 2)
           "2024-01-01").
  vm_compute. reflexivity.
Defined.

(** ** Examples of the edge cases *)

Lemma create_400_only_when_missing_witness :
  lacks_required WorkoutStore
    (PDict (<[ "date"%string := PStr "2024-01-01" ]>
           (<[ "type"%string := PStr "run" ]>
           (<[ "calories"%string := PInt 300 ]> ∅)))).
Proof.
  apply (create_400_only_when_missing WorkoutStore "2024-01-01 07:00:00" _
           one_day one_day 400 "Invalid or missing data in request").
  vm_compute. reflexivity.
Defined.

Lemma get_stats_overflow_witness :
  get_stats
    (with_workouts [heavy 1 "2024-01-01 07:00:00"; heavy 2 "2024-01-01 09:00:00"] 2)
  = Raise DatabaseError.
Proof.
  apply (get_stats_overflow
           (with_workouts
              [heavy 1 "2024-01-01 07:00:00"; heavy 2 "2024-01-01 09:00:00"] 2)).
  vm_compute. reflexivity.
Defined.

Lemma delete_out_of_range_witness :
  delete_workout (2 ^ 63) one_day = Raise OverflowError ∧
  delete_meal (2 ^ 63) one_day = Raise OverflowError ∧
  delete_goal (2 ^ 63) one_day = Raise OverflowError.
Proof. apply (delete_out_of_range (2 ^ 63) one_day). vm_compute. reflexivity. Defined.

(** * The calorie goal set twice, and the defaults of a created row *)

(** ** Two calls of [set_calorie_goal] for one date *)

Lemma max_rowid_bound {R} (rowid : R → Z) (l : list R) (b : Z) :
  0 ≤ b → (∀ r, r ∈ l → rowid r ≤ b) → max_rowid rowid l ≤ b.
Proof.
  intros Hb. induction l as [|x l IH]; intros Hl; simpl; [done|].
  apply Z.max_lub.
  - apply Hl. by left.
  - apply IH. intros r Hr. apply Hl. by right.
Qed.

(** C1, as the code has it. In a state whose calorie-goal table has two
    rowids left, and for goals [g1] and [g2] that fit in 64 bits,
    [set_calorie_goal] for a date and [g1] and then for the same date and
    [g2] is answered 201 both times; afterwards exactly one row holds
    that date, its goal is [g2], its [created_at] is the time of the
    second call and its id is above every id the table held before the
    second call; the rows of the other dates are the ones there were. *)
Theorem set_calorie_goal_twice (db : database) (now1 now2 d : string) (g1 g2 : Z) :
  in_int64 g1 = true →
  in_int64 g2 = true →
  largest_rowid CalorieGoal.id (calorie_goals db) < max_int64 - 1 →
  ∃ db1 db2 row,
    set_calorie_goal now1 (goal_payload d g1) db
    = Ok (Reply 201 "Calorie goal set successfully"%string, db1) ∧
    set_calorie_goal now2 (goal_payload d g2) db1
    = Ok (Reply 201 "Calorie goal set successfully"%string, db2) ∧
    filter (λ r, CalorieGoal.date r = d) (rows (calorie_goals db2)) = [row] ∧
    CalorieGoal.daily_goal row = g2 ∧
    CalorieGoal.created_at row = now2 ∧
    (∀ old, old ∈ rows (calorie_goals db1) → CalorieGoal.id old < CalorieGoal.id row) ∧
    filter (λ r, CalorieGoal.date r ≠ d) (rows (calorie_goals db2))
    = filter (λ r, CalorieGoal.date r ≠ d) (rows (calorie_goals db)).
Proof.
  intros Hg1 Hg2 Hroom.
  pose (k1 := largest_rowid CalorieGoal.id (calorie_goals db) + 1).
  pose (db1 := set_calorie_goals
                 (Table (filter (λ r, CalorieGoal.date r ≠ d) (rows (calorie_goals db))
                         ++ [CalorieGoal.Row k1 d g1 now1]) k1) db).
  assert (set_calorie_goal now1 (goal_payload d g1) db
          = Ok (Reply 201 "Calorie goal set successfully"%string, db1)) as E1.
  { rewrite set_calorie_goal_eq, Hg1, new_rowid_largest by lia. reflexivity. }
  assert (0 ≤ k1) as Hk1.
  { pose proof (max_rowid_nonneg CalorieGoal.id (rows (calorie_goals db))).
    unfold k1, largest_rowid. lia. }
  destruct (set_calorie_goal_succeeds now2 d g2 db1 Hg2) as [db2 E2].
  { simpl. apply Z.max_lub_lt; [unfold k1; lia|].
    apply Z.le_lt_trans with k1; [|unfold k1; lia].
    apply max_rowid_bound; [done|].
    intros r [Hr| ->%list_elem_of_singleton]%elem_of_app; [|simpl; lia].
    apply list_elem_of_filter in Hr as [_ Hr].
    apply (largest_rowid_above CalorieGoal.id) in Hr. unfold k1. lia. }
  destruct (two_sets_returned _ _ _ _ _ _ _ _ _ _ E1 E2)
    as (row & H1 & H2 & H3 & H4 & H5 & _ & _).
  by exists db1, db2, row.
Qed.

Lemma set_calorie_goal_twice_witness :
  ∃ db1 db2 row,
    set_calorie_goal "2024-01-01 09:00:00" (goal_payload "2024-01-01" 2000) one_day
    = Ok (Reply 201 "Calorie goal set successfully"%string, db1) ∧
    set_calorie_goal "2024-01-01 09:30:00" (goal_payload "2024-01-01" 2200) db1
    = Ok (Reply 201 "Calorie goal set successfully"%string, db2) ∧
    filter (λ r, CalorieGoal.date r = "2024-01-01"%string) (rows (calorie_goals db2))
    = [row] ∧
    CalorieGoal.daily_goal row = 2200 ∧
    CalorieGoal.created_at row = "2024-01-01 09:30:00"%string ∧
    (∀ old, old ∈ rows (calorie_goals db1) → CalorieGoal.id old < CalorieGoal.id row) ∧
    filter (λ r, CalorieGoal.date r ≠ "2024-01-01"%string) (rows (calorie_goals db2))
    = filter (λ r, CalorieGoal.date r ≠ "2024-01-01"%string)
        (rows (calorie_goals one_day)).
Proof.
  apply (set_calorie_goal_twice one_day "2024-01-01 09:00:00" "2024-01-01 09:30:00"
           "2024-01-01" 2000 2200); vm_compute; reflexivity.
Defined.

(** C1, as the specification has it, fails: the first call stores a goal
    of 2000; the second, for the same date and a goal of 2^63, raises
    [OverflowError] at the binding, nothing is written, and the only row
    of the date still holds 2000 instead of the second goal. *)
Lemma set_calorie_goal_second_goal_too_large :
  set_calorie_goal "2024-01-01 09:00:00" (goal_payload "2024-01-01" 2000) one_day
  = Ok (Reply 201 "Calorie goal set successfully"%string, goal_day) ∧
  set_calorie_goal "2024-01-01 09:30:00" (goal_payload "2024-01-01" 9223372036854775808)
    goal_day
  = Raise OverflowError ∧
  db_after
    (set_calorie_goal "2024-01-01 09:30:00"
       (goal_payload "2024-01-01" 9223372036854775808) goal_day) goal_day
  = Some goal_day ∧
  filter (λ r, CalorieGoal.date r = "2024-01-01"%string) (rows (calorie_goals goal_day))
  = [first_goal] ∧
  CalorieGoal.daily_goal first_goal ≠ 9223372036854775808.
Proof. split_and!; by vm_compute. Qed.

(** ** The defaults of a created row *)

(** C9. Every optional field that the payload of a create call omits
    holds its default in the row the call stores: the empty string for
    the notes of a workout and of a meal, 0 for the protein, carbs and
    fats of a meal, NULL for the deadline of a goal. This holds of every
    create call that answers 201; and a payload with the required fields
    alone, its integers in 64 bits, is answered 201 while a rowid is
    left, and stores the row with the submitted fields and those defaults. *)
Theorem create_defaults (now : string) (db : database) :
  (∀ (d : gmap string pyval) (db' : database) (k : Z) (msg : string),
     (add_workout now (PDict d) db = Ok (Reply 201 (k, msg), db') →
      ∃ row, rows (workouts db') = rows (workouts db) ++ [row] ∧
             Workout.id row = k ∧
             (d !! "notes"%string = None → Workout.notes row = Some EmptyString)) ∧
     (add_meal now (PDict d) db = Ok (Reply 201 (k, msg), db') →
      ∃ row, rows (meals db') = rows (meals db) ++ [row] ∧
             Meal.id row = k ∧
             (d !! "protein"%string = None → Meal.protein row = Some 0) ∧
             (d !! "carbs"%string = None → Meal.carbs row = Some 0) ∧
             (d !! "fats"%string = None → Meal.fats row = Some 0) ∧
             (d !! "notes"%string = None → Meal.notes row = Some EmptyString)) ∧
     (add_goal now (PDict d) db = Ok (Reply 201 (k, msg), db') →
      ∃ row, rows (goals db') = rows (goals db) ++ [row] ∧
             Goal.id row = k ∧
             (d !! "deadline"%string = None → Goal.deadline row = None))) ∧
  (∀ (date type : string) (duration calories : Z),
     in_int64 duration = true → in_int64 calories = true →
     largest_rowid Workout.id (workouts db) < max_int64 →
     add_workout now (workout_payload date type duration calories) db
     = Ok (Reply 201 (largest_rowid Workout.id (workouts db) + 1,
                      "Workout added successfully"%string),
           set_workouts
             (Table (rows (workouts db)
                     ++ [Workout.Row (largest_rowid Workout.id (workouts db) + 1)
                           date type duration calories (Some EmptyString) now])
                    (largest_rowid Workout.id (workouts db) + 1)) db)) ∧
  (∀ (date meal_type food_name : string) (calories : Z),
     in_int64 calories = true →
     largest_rowid Meal.id (meals db) < max_int64 →
     add_meal now (meal_payload date meal_type food_name calories) db
     = Ok (Reply 201 (largest_rowid Meal.id (meals db) + 1,
                      "Meal added successfully"%string),
           set_meals
             (Table (rows (meals db)
                     ++ [Meal.Row (largest_rowid Meal.id (meals db) + 1)
                           date meal_type food_name calories
                           (Some 0) (Some 0) (Some 0) (Some EmptyString) now])
                    (largest_rowid Meal.id (meals db) + 1)) db)) ∧
  (∀ (goal_type : string) (target_value : Z),
     in_int64 target_value = true →
     largest_rowid Goal.id (goals db) < max_int64 →
     add_goal now (goal_row_payload goal_type target_value) db
     = Ok (Reply 201 (largest_rowid Goal.id (goals db) + 1,
                      "Goal added successfully"%string),
           set_goals
             (Table (rows (goals db)
                     ++ [Goal.Row (largest_rowid Goal.id (goals db) + 1)
                           goal_type target_value None now])
                    (largest_rowid Goal.id (goals db) + 1)) db)).
Proof.
  split_and!.
  - intros d db' k msg. apply created_row_defaults.
  - intros date type duration calories Hd Hc Hroom.
    by rewrite add_workout_eq, Hd, Hc, new_rowid_largest.
  - intros date meal_type food_name calories Hc Hroom.
    by rewrite add_meal_eq, Hc, new_rowid_largest.
  - intros goal_type target_value Ht Hroom.
    by rewrite add_goal_eq, Ht, new_rowid_largest.
Qed.

(** A workout, a meal and a goal created on [one_day] from the required
    fields alone. *)
Lemma create_defaults_witness :
  add_workout "2024-01-03 06:30:00" (workout_payload "2024-01-03" "yoga" 20 90) one_day
  = Ok (Reply 201 (3, "Workout added successfully"%string),
        set_workouts
          (Table ([run; swim]
                  ++ [Workout.Row 3 "2024-01-03" "yoga" 20 90 (Some EmptyString)
                        "2024-01-03 06:30:00"]) 3) one_day) ∧
  add_meal "2024-01-03 06:30:00" (meal_payload "2024-01-03" "breakfast" "oats" 350) one_day
  = Ok (Reply 201 (4, "Meal added successfully"%string),
        set_meals
          (Table ([breakfast; lunch; dinner]
                  ++ [Meal.Row 4 "2024-01-03" "breakfast" "oats" 350
                        (Some 0) (Some 0) (Some 0) (Some EmptyString)
                        "2024-01-03 06:30:00"]) 4) one_day) ∧
  add_goal "2024-01-03 06:30:00" (goal_row_payload "weight" 70) one_day
  = Ok (Reply 201 (1, "Goal added successfully"%string),
        set_goals
          (Table ([] ++ [Goal.Row 1 "weight" 70 None "2024-01-03 06:30:00"]) 1)
          one_day) ∧
  ∃ row, rows (meals (with_meals [breakfast] 1)) = rows (meals empty_db) ++ [row] ∧
         Meal.id row = 1 ∧
         Meal.protein row = Some 0 ∧
         Meal.notes row = Some EmptyString.
Proof.
  destruct (create_defaults "2024-01-03 06:30:00" one_day) as (_ & Hw & Hm & Hg).
  split; [|split; [|split]].
  - apply (Hw "2024-01-03" "yoga" 20 90); reflexivity.
  - apply (Hm "2024-01-03" "breakfast" "oats" 350); reflexivity.
  - apply (Hg "weight" 70); reflexivity.
  - destruct (create_defaults "2024-01-01 08:00:00" empty_db) as (Hany & _).
    destruct (Hany (<[ "date"%string := PStr "2024-01-01" ]>
                   (<[ "meal_type"%string := PStr "breakfast" ]>
                   (<[ "food_name"%string := PStr "oats" ]>
                   (<[ "calories"%string := PInt 350 ]> ∅))))
                (with_meals [breakfast] 1) 1 "Meal added successfully"%string)
      as (_ & Hmeal & _).
    destruct Hmeal as (row & Hrows & Hid & Hp & _ & _ & Hn).
    { vm_compute. reflexivity. }
    exists row. split_and!; [exact Hrows|exact Hid|..].
    + apply Hp. vm_compute. reflexivity.
    + apply Hn. vm_compute. reflexivity.
Defined.
